(** * Agora Protocol: the paper-trading execution simulator

    A shallow embedding of [src/execution/paper_wallet.py] and
    [src/execution/order_executor.py].

    Numbers are Python [float]s, that is IEEE 754 binary64 values with
    round-to-nearest-even: they are embedded as Rocq's primitive floats,
    which are the same format with the same rounding, so every
    definition below evaluates to the value the Python code computes.

    Python dictionaries are finite maps ([gmap]); the optional
    arguments ([None]) are [option]s; exceptions that the code lets
    escape are an explicit [Raise] outcome.  Logging has no effect on
    the state and is left out; [PaperWallet.save] rewrites the JSON file
    after every mutation, swallows its own I/O errors and never changes
    the in-memory balances, so the file is left out as well.  The
    latency injection ([time.sleep]) only delays the call. *)

From Stdlib Require Import ZArith Zpower Lia Bool List Ascii String Floats.
From stdpp Require Import base option list gmap strings.

Set Warnings "-inexact-float".
#[local] Open Scope float_scope.

(** ** Python values and operators *)

Module Py.

Inductive exn := TypeError | ValueError | KeyError | ZeroDivisionError.

(** The result of a call: a returned value or an escaping exception. *)
Inductive outcome (A : Type) :=
| Return (a : A)
| Raise (e : exn).
Arguments Return {A} a.
Arguments Raise {A} e.

(** [bool(x)] of a float: every value but [0.0] and [-0.0]. *)
Definition truthy (x : float) : bool := negb (x =? 0).

(** [bool(x)] of an optional float: [None] is falsy. *)
Definition truthy_opt (x : option float) : bool :=
  match x with
  | None => false
  | Some v => truthy v
  end.

(** [min(a, b)]: the first argument unless the second is smaller. *)
Definition min (a b : float) : float := if b <? a then b else a.

(** [a / b] on floats raises on a zero divisor. *)
Definition div (a b : float) : outcome float :=
  if b =? 0 then Raise ZeroDivisionError else Return (a / b).

(** [x > 0] where [x] may be [None]: ordering [None] against an
    integer is a [TypeError]. *)
Definition gt0 (x : option float) : outcome bool :=
  match x with
  | None => Raise TypeError
  | Some v => Return (0 <? v)
  end.

(** [s.split(sep)] for a one-character separator. *)
Fixpoint split (sep : ascii) (s : string) : list string :=
  match s with
  | EmptyString => [EmptyString]
  | String c rest =>
      if Ascii.eqb c sep then EmptyString :: split sep rest
      else match split sep rest with
           | piece :: pieces => String c piece :: pieces
           | [] => [String c EmptyString]
           end
  end.

(** [s.count(sep)]. *)
Fixpoint count (sep : ascii) (s : string) : nat :=
  match s with
  | EmptyString => O
  | String c rest => (if Ascii.eqb c sep then 1 else 0) + count sep rest
  end%nat.

(** [levels[-1]] of a list. *)
Definition last_item {A} (l : list A) : option A := List.last (map Some l) None.

End Py.

Import Py.

(** ** The wallet ledger ([paper_wallet.py]) *)

Module PaperWallet.

(** [self.balances]: asset symbol to quantity. *)
Abbreviation balances := (gmap string float).

(** [get_balance]: [self.balances.get(currency, 0.0)]. *)
Definition get_balance (b : balances) (currency : string) : float :=
  default 0 (b !! currency).

(** [deposit]: a negative amount is logged and ignored. *)
Definition deposit (b : balances) (currency : string) (amount : float) : balances :=
  if amount <? 0 then b
  else
    let current := get_balance b currency in
    <[currency := current + amount]> b.

(** [withdraw]: the returned flag and the balances afterwards. *)
Definition withdraw (b : balances) (currency : string) (amount : float)
  : bool * balances :=
  if amount <? 0 then (false, b)
  else
    let current := get_balance b currency in
    if amount <=? current then (true, <[currency := current - amount]> b)
    else (false, b).

(** *** The wallet as an object in a store

    [get_all_balances] hands out [self.balances] itself.  To speak
    about what a caller can do with the returned mapping, dictionaries
    live in a store and are named by references. *)

Definition ref := nat.
Abbreviation store := (gmap ref balances).

(** A wallet object: its one field that matters, the reference held
    in [self.balances]. *)
Record wallet := { balances_ref : ref }.

Definition deref (h : store) (r : ref) : balances := default ∅ (h !! r).

(** [d.get(k, 0.0)] and [d[k] = v] on a dictionary of the store, as
    any holder of the reference can run them. *)
Definition dict_get (h : store) (r : ref) (k : string) : float :=
  get_balance (deref h r) k.
Definition dict_set (h : store) (r : ref) (k : string) (v : float) : store :=
  <[r := <[k := v]> (deref h r)]> h.

Definition obj_get_balance (h : store) (w : wallet) (currency : string) : float :=
  get_balance (deref h (balances_ref w)) currency.

Definition obj_deposit (h : store) (w : wallet) (currency : string) (amount : float)
  : store :=
  <[balances_ref w := deposit (deref h (balances_ref w)) currency amount]> h.

Definition obj_withdraw (h : store) (w : wallet) (currency : string) (amount : float)
  : bool * store :=
  let '(ok, b) := withdraw (deref h (balances_ref w)) currency amount in
  (ok, <[balances_ref w := b]> h).

(** [get_all_balances]: [return self.balances]; the store is not
    touched and no dictionary is allocated. *)
Definition get_all_balances (h : store) (w : wallet) : ref * store :=
  (balances_ref w, h).

(** *** Sequences of ledger calls *)

Inductive call :=
| Deposit (currency : string) (amount : float)
| Withdraw (currency : string) (amount : float).

Definition call_amount (c : call) : float :=
  match c with
  | Deposit _ a => a
  | Withdraw _ a => a
  end.

Definition run_call (b : balances) (c : call) : balances :=
  match c with
  | Deposit cur a => deposit b cur a
  | Withdraw cur a => snd (withdraw b cur a)
  end.

(** The ledger after each call of a sequence, in order. *)
Fixpoint trace (b : balances) (cs : list call) : list balances :=
  match cs with
  | [] => []
  | c :: rest => let b' := run_call b c in b' :: trace b' rest
  end.

(** [x >= 0] as Python evaluates it. *)
Definition nonneg (x : float) : bool := 0 <=? x.

(** The balance of every asset is [>= 0]. *)
Definition all_nonneg (b : balances) : Prop :=
  forall asset : string, nonneg (get_balance b asset) = true.

(** A float that is neither NaN nor an infinity ([math.isfinite]). *)
Definition finite (x : float) : bool :=
  match Prim2SF x with
  | S754_zero _ | S754_finite _ _ _ => true
  | _ => false
  end.

(** A binary64 value, in the representation of the IEEE 754
    specification, that is a zero or carries the sign [s], and is not
    NaN. *)
Definition signed (s : bool) (f : spec_float) : Prop :=
  match f with
  | S754_zero _ => True
  | S754_infinity s' | S754_finite s' _ _ => s' = s
  | S754_nan => False
  end.

End PaperWallet.

Import PaperWallet.

(** ** The execution engine ([order_executor.py]) *)

Module OrderExecutor.

(** One order-book level, [[price, volume]]. *)
Definition level := (float * float)%type.

(** An order-book snapshot: a dictionary with the level lists under
    the keys ["asks"] and ["bids"]. *)
Abbreviation book := (gmap string (list level)).

(** The trade signal, a dictionary read through [signal.get]: the
    keys the engine looks at, and a strategy tag that it passes over. *)
Record signal := {
  sig_side : option string;
  sig_price : option float;
  sig_strategy : option string;
}.

(** Whether a key is in the dictionary. *)
Definition present {A} (x : option A) : bool :=
  match x with
  | Some _ => true
  | None => false
  end.

(** [bool(signal)] of an optional dictionary: [None] and [{}] are falsy. *)
Definition signal_truthy (s : option signal) : bool :=
  match s with
  | None => false
  | Some d => present (sig_side d) || present (sig_price d) || present (sig_strategy d)
  end.

(** [bool(order_book)]. *)
Definition book_truthy (ob : option book) : bool :=
  match ob with
  | None => false
  | Some d => negb (Nat.eqb (size d) 0)
  end.

Inductive fill_id :=
| paper_ (stamp : float)      (* f'paper_{int(time.time())}' *)
| live_mock
| ladder_mock_ (i : nat).

Inductive fill_status := closed | open.

(** The result dictionary; the live placeholder has no ['price'] and
    no ['cost'] entry, the ladder placeholder no ['cost']. *)
Record fill := {
  fill_id_of : fill_id;
  fill_status_of : fill_status;
  fill_side : string;
  fill_amount : float;
  fill_price : option float;
  fill_cost : option float;
}.

(** The engine object. [min_trade_interval] is the constant
    [config.MIN_TRADE_INTERVAL], whose module is not part of the
    sources at hand: it is a field set at construction. *)
Record executor := {
  paper_wallet : option balances;
  slippage_pct : float;
  fee_pct : float;
  last_trade_time : float;
  min_trade_interval : float;
}.

(** [OrderExecutor.__init__]. *)
Definition init (wallet : option balances) (slippage fee interval : float) : executor :=
  {| paper_wallet := wallet; slippage_pct := slippage; fee_pct := fee;
     last_trade_time := 0; min_trade_interval := interval |}.

Definition set_wallet (self : executor) (w : balances) : executor :=
  {| paper_wallet := Some w; slippage_pct := slippage_pct self;
     fee_pct := fee_pct self; last_trade_time := last_trade_time self;
     min_trade_interval := min_trade_interval self |}.

Definition set_last_trade_time (self : executor) (t : float) : executor :=
  {| paper_wallet := paper_wallet self; slippage_pct := slippage_pct self;
     fee_pct := fee_pct self; last_trade_time := t;
     min_trade_interval := min_trade_interval self |}.

(** *** Price discovery *)

(** The loop of lines 128-133: the running [(total_cost,
    remaining_amount)] after the levels, leaving at the first level
    that brings the remainder to [<= 0]. *)
Fixpoint walk (levels : list level) (total_cost remaining_amount : float)
  : float * float :=
  match levels with
  | [] => (total_cost, remaining_amount)
  | (p, v) :: rest =>
      let fill := Py.min remaining_amount v in
      let total_cost := total_cost + fill * p in
      let remaining_amount := remaining_amount - fill in
      if remaining_amount <=? 0 then (total_cost, remaining_amount)
      else walk rest total_cost remaining_amount
  end.

(** Lines 135-139: the price of what the book could not fill. *)
Definition penalty_price (side : string) (last_p : float) : float :=
  if String.eqb side "buy" then last_p * 1.05 else last_p * 0.95.

(** Lines 124-142 for a non-empty level list: [total_cost / amount]. *)
Definition book_price (side : string) (levels : list level) (amount : float)
  : outcome float :=
  let '(total_cost, remaining_amount) := walk levels 0 amount in
  let total_cost :=
    if 0 <? remaining_amount then
      match Py.last_item levels with
      | Some (last_p, _) => total_cost + remaining_amount * penalty_price side last_p
      | None => total_cost
      end
    else total_cost in
  Py.div total_cost amount.

(** Lines 150-152: the flat slippage multiplier. *)
Definition slip_mult (self : executor) (side : string) : float :=
  if String.eqb side "buy" then 1 + slippage_pct self / 100
  else 1 - slippage_pct self / 100.

(** Lines 116-152: [exec_price], which is still [None] when no price
    was given and the book side is empty. *)
Definition discover_price (self : executor) (side : string) (amount : float)
    (price : option float) (order_book : option book) : outcome (option float) :=
  if book_truthy order_book then
    match default ∅ order_book !! (if String.eqb side "buy" then "asks" else "bids") with
    | None => Raise KeyError
    | Some [] => Return price
    | Some levels =>
        match book_price side levels amount with
        | Raise e => Raise e
        | Return exec_price =>
            match Py.gt0 price with       (* guards the log line only *)
            | Raise e => Raise e
            | Return _ => Return (Some exec_price)
            end
        end
    end
  else
    match Py.gt0 price with
    | Raise e => Raise e
    | Return true => Return (option_map (fun p => p * slip_mult self side) price)
    | Return false => Return price
    end.

(** *** Settlement (lines 154-184) *)

Definition fee_mult (self : executor) : float := 1 + fee_pct self / 100.

(** What a buy pays. *)
Definition total_cost_of (self : executor) (amount exec_price : float) : float :=
  (amount * exec_price) * fee_mult self.

(** What a sell receives. *)
Definition sell_proceeds_of (self : executor) (amount exec_price : float) : float :=
  (amount * exec_price) * (1 - fee_pct self / 100).

Definition paper_fill (stamp : float) (side : string) (amount exec_price cost : float)
  : fill :=
  {| fill_id_of := paper_ stamp; fill_status_of := closed; fill_side := side;
     fill_amount := amount; fill_price := Some exec_price; fill_cost := Some cost |}.

Definition settle (self : executor) (w : balances) (stamp : float)
    (side base quote : string) (amount exec_price : float)
  : option fill * balances :=
  let total_cost := total_cost_of self amount exec_price in
  let sell_proceeds := sell_proceeds_of self amount exec_price in
  if String.eqb side "buy" then
    match withdraw w quote total_cost with
    | (true, w1) =>
        (Some (paper_fill stamp "buy" amount exec_price total_cost),
         deposit w1 base amount)
    | (false, w1) => (None, w1)
    end
  else if String.eqb side "sell" then
    match withdraw w base amount with
    | (true, w1) =>
        (Some (paper_fill stamp "sell" amount exec_price sell_proceeds),
         deposit w1 quote sell_proceeds)
    | (false, w1) => (None, w1)
    end
  else (None, w).

(** [_execute_paper_trade], on the wallet [w] that [self.paper_wallet]
    holds; [stamp] is the clock read for the fill's identifier. *)
Definition _execute_paper_trade (self : executor) (w : balances) (stamp : float)
    (side symbol : string) (amount : float) (price : option float)
    (order_book : option book) : outcome (option fill) * balances :=
  if negb (Py.truthy_opt price) && negb (book_truthy order_book) then (Return None, w)
  else
    match Py.split "/" symbol with
    | [base; quote] =>
        match discover_price self side amount price order_book with
        | Raise e => (Raise e, w)
        | Return None => (Raise TypeError, w)      (* amount * None *)
        | Return (Some exec_price) =>
            let '(res, w') := settle self w stamp side base quote amount exec_price in
            (Return res, w')
        end
    | _ => (Raise ValueError, w)                   (* base, quote = ... *)
    end.

(** [execute_order]; [now] is the clock read at the rate-limit check,
    [stamp] the one read when a paper fill is built. *)
Definition execute_order (self : executor) (now stamp : float)
    (sig : option signal) (symbol : string) (amount : float)
    (order_book : option book) : outcome (option fill) * executor :=
  if negb (signal_truthy sig) then (Return None, self)
  else
    match sig ≫= sig_side with
    | None => (Return None, self)
    | Some side =>
        if negb (String.eqb side "buy" || String.eqb side "sell") then (Return None, self)
        else if now - last_trade_time self <? min_trade_interval self then
          (Return None, self)
        else
          match paper_wallet self with
          | Some w =>
              let '(res, w') :=
                _execute_paper_trade self w stamp side symbol amount
                  (sig ≫= sig_price) order_book in
              (res, set_wallet self w')
          | None =>
              (Return (Some {| fill_id_of := live_mock; fill_status_of := closed;
                               fill_side := side; fill_amount := amount;
                               fill_price := None; fill_cost := None |}),
               set_last_trade_time self now)
          end
    end.

(** *** Ladder orders *)

(** The blueprint of lines 75-79: [(size_mult, price_mult)]. *)
Definition rungs : list (float * float) :=
  [(0.2, 0.99); (0.3, 0.98); (0.5, 0.96)].

Definition ladder_mock (i : nat) (rung_amount rung_price : float) : fill :=
  {| fill_id_of := ladder_mock_ i; fill_status_of := open; fill_side := "buy";
     fill_amount := rung_amount; fill_price := Some rung_price; fill_cost := None |}.

(** [results.append(res)] under [if res:]. *)
Definition append_if (results : list fill) (res : option fill) : list fill :=
  match res with
  | Some r => results ++ [r]
  | None => results
  end.

(** The loop of lines 82-96 from rung [i] on; [clock i] is the clock
    read while rung [i] settles. *)
Fixpoint ladder_loop (self : executor) (clock : nat -> float) (symbol : string)
    (total_amount current_price : float) (i : nat) (todo : list (float * float))
    (results : list fill) : outcome (list fill) * executor :=
  match todo with
  | [] => (Return results, self)
  | (size_mult, price_mult) :: rest =>
      let rung_amount := total_amount * size_mult in
      let rung_price := current_price * price_mult in
      match paper_wallet self with
      | Some w =>
          match _execute_paper_trade self w (clock i) "buy" symbol rung_amount
                  (Some rung_price) None with
          | (Raise e, w') => (Raise e, set_wallet self w')
          | (Return res, w') =>
              ladder_loop (set_wallet self w') clock symbol total_amount current_price
                (S i) rest (append_if results res)
          end
      | None =>
          ladder_loop self clock symbol total_amount current_price (S i) rest
            (results ++ [ladder_mock i rung_amount rung_price])
      end
  end.

(** [execute_ladder_order]; the [order_book] argument is never read. *)
Definition execute_ladder_order (self : executor) (clock : nat -> float)
    (sig : option signal) (symbol : string) (total_amount : float)
    (order_book : option book) : outcome (option (list fill)) * executor :=
  if negb (signal_truthy sig) || negb (Py.truthy total_amount) then (Return None, self)
  else
    match sig ≫= sig_price with
    | None => (Return None, self)
    | Some current_price =>
        if negb (Py.truthy current_price) then (Return None, self)
        else
          match ladder_loop self clock symbol total_amount current_price 0 rungs [] with
          | (Raise e, self') => (Raise e, self')
          | (Return [], self') => (Return None, self')
          | (Return results, self') => (Return (Some results), self')
          end
    end.

End OrderExecutor.

Import OrderExecutor.

(** ** The specification's wording of the book walk

    Section 4.2 of the specification describes the walk by its fills:
    at each level [fill = min(remaining_amount, level_volume)], the
    remainder is decremented, and the walk stops when the remainder is
    [<= 0] or the levels are exhausted.  These definitions follow that
    wording; the theorems compare them with the loop of the code. *)

Module Spec.

(** The consumed levels in book order, as [(fill, price)]. *)
Fixpoint consumed (levels : list level) (remaining_amount : float)
  : list (float * float) :=
  match levels with
  | [] => []
  | (p, v) :: rest =>
      let fill := Py.min remaining_amount v in
      (fill, p) ::
        (if remaining_amount - fill <=? 0 then []
         else consumed rest (remaining_amount - fill))
  end.

(** What is left of the amount once the walk has stopped. *)
Fixpoint unfilled (levels : list level) (remaining_amount : float) : float :=
  match levels with
  | [] => remaining_amount
  | (p, v) :: rest =>
      let fill := Py.min remaining_amount v in
      if remaining_amount - fill <=? 0 then remaining_amount - fill
      else unfilled rest (remaining_amount - fill)
  end.

(** The sum of [fill * price] over the consumed levels, added up in
    book order. *)
Definition notional (fills : list (float * float)) : float :=
  fold_left (fun acc fp => acc + fst fp * snd fp) fills 0.

(** The volume-weighted average price over the requested amount, as
    in the specification's example [(100*1 + 101*1)/2]. *)
Definition vwap (fills : list (float * float)) (amount : float) : float :=
  notional fills / amount.

(** The sum of the volumes of a book side, and the book holding
    enough volume for an amount. *)
Definition total_volume (levels : list level) : float :=
  fold_left (fun acc pv => acc + snd pv) levels 0.

(** The three rungs of the ladder plan for a total amount and a
    reference price: [(amount, price)] in rung order. *)
Definition ladder_plan (total_amount reference_price : float) : list (float * float) :=
  [(total_amount * 0.2, reference_price * 0.99);
   (total_amount * 0.3, reference_price * 0.98);
   (total_amount * 0.5, reference_price * 0.96)].

(** The specification's ladder: each rung of a plan is settled on its
    own through a paper buy without order book, the wallet passing
    from rung to rung; the outcome keeps one entry per rung, [None]
    for a rung that did not settle.  [clock i] is the clock read
    while rung [i] settles. *)
Fixpoint settle_plan (self : executor) (w : balances) (clock : nat -> float)
    (symbol : string) (i : nat) (plan : list (float * float))
  : outcome (list (option fill)) * balances :=
  match plan with
  | [] => (Return [], w)
  | (rung_amount, rung_price) :: rest =>
      match _execute_paper_trade self w (clock i) "buy" symbol rung_amount
              (Some rung_price) None with
      | (Raise e, w') => (Raise e, w')
      | (Return res, w') =>
          match settle_plan self w' clock symbol (S i) rest with
          | (Raise e, w'') => (Raise e, w'')
          | (Return results, w'') => (Return (res :: results), w'')
          end
      end
  end.

(** The fills among per-rung results, in rung order. *)
Definition fills_of (results : list (option fill)) : list fill := omap id results.

(** [results if results else None]. *)
Definition some_if_any (fills : list fill) : option (list fill) :=
  match fills with
  | [] => None
  | _ => Some fills
  end.

End Spec.

(** ** Concrete objects used in the examples *)

Module Sample.

Definition wallet_of (usd btc : float) : balances :=
  <["USD" := usd]> (<["BTC" := btc]> ∅).

(** An engine without slippage and fee over a wallet, with a
    60-second trade interval. *)
Definition plain (w : balances) : executor := init (Some w) 0 0 60.

(** An engine with a 0.1 percent fee. *)
Definition with_fee (w : balances) : executor := init (Some w) 0 0.1 60.

(** An engine in live mode. *)
Definition live : executor := init None 0 0 60.

Definition book_of (asks bids : list level) : book :=
  <["asks" := asks]> (<["bids" := bids]> ∅).

Definition buy_at (p : float) : signal :=
  {| sig_side := Some "buy"; sig_price := Some p; sig_strategy := None |}.

End Sample.

(** ** The wallet and its file ([paper_wallet.py], lines 7-76)

    The wallet keeps its balances in a JSON file that it rewrites
    wholesale after every mutation.  The file is either absent or
    present, and a present file either holds a mapping that
    [json.load] returns or cannot be loaded.  What a write does when it
    fails is up to the file system: the environment says what is left
    on disk. *)

Module WalletFile.

Inductive file :=
| Json (b : balances)      (* what [json.dump(self.balances, f)] wrote *)
| Unreadable.              (* [json.load] raises on it *)

(** The path [self.filename]: [None] when [os.path.exists] is false. *)
Abbreviation disk := (option file).

(** The outcome of [open(..., 'w')] and [json.dump]: either the
    mapping is written, or an exception is caught and the file is left
    in the state named. *)
Inductive write :=
| written
| write_failed (remains : disk).

(** [save]: the exception of a failed write is logged and swallowed. *)
Definition save (io : write) (b : balances) (d : disk) : disk :=
  match io with
  | written => Some (Json b)
  | write_failed remains => remains
  end.

(** The wallet object: [self.initial_capital], [self.initial_holdings]
    ([initial_holdings or {}]) and [self.balances]. *)
Record obj := {
  initial_capital : float;
  initial_holdings : gmap string float;
  bal : balances;
}.

Definition set_bal (self : obj) (b : balances) : obj :=
  {| initial_capital := initial_capital self;
     initial_holdings := initial_holdings self; bal := b |}.

(** [_init_defaults]: the capital under ["USD"], then every initial
    holding assigned over it, then a save. *)
Definition _init_defaults (io : write) (self : obj) (d : disk) : obj * disk :=
  let b := map_fold (fun asset amount acc => <[asset := amount]> acc)
             {["USD" := initial_capital self]} (initial_holdings self) in
  (set_bal self b, save io b d).

(** [load]; [readable] says whether opening and parsing an existing,
    well-formed file goes through. *)
Definition load (readable : bool) (io : write) (self : obj) (d : disk) : obj * disk :=
  match d with
  | Some (Json b) =>
      if readable then (set_bal self b, d) else _init_defaults io self d
  | Some Unreadable => _init_defaults io self d
  | None => _init_defaults io self d
  end.

(** [PaperWallet.__init__]. *)
Definition __init__ (readable : bool) (io : write) (capital : float)
    (holdings : gmap string float) (d : disk) : obj * disk :=
  load readable io
    {| initial_capital := capital; initial_holdings := holdings; bal := ∅ |} d.

(** [deposit], with its save. *)
Definition deposit (io : write) (self : obj) (d : disk) (currency : string)
    (amount : float) : obj * disk :=
  if amount <? 0 then (self, d)
  else
    let current := get_balance (bal self) currency in
    let b := <[currency := current + amount]> (bal self) in
    (set_bal self b, save io b d).

(** [withdraw], with its save. *)
Definition withdraw (io : write) (self : obj) (d : disk) (currency : string)
    (amount : float) : bool * obj * disk :=
  if amount <? 0 then (false, self, d)
  else
    let current := get_balance (bal self) currency in
    if amount <=? current then
      let b := <[currency := current - amount]> (bal self) in
      (true, set_bal self b, save io b d)
    else (false, self, d).

(** One ledger call together with what its write, if any, does. *)
Definition run_call (st : obj * disk) (c : call * write) : obj * disk :=
  match c with
  | (Deposit cur a, io) => deposit io (fst st) (snd st) cur a
  | (Withdraw cur a, io) =>
      let '(_, self, d) := withdraw io (fst st) (snd st) cur a in (self, d)
  end.

Definition run (st : obj * disk) (cs : list (call * write)) : obj * disk :=
  fold_left run_call cs st.

End WalletFile.

(** ** Ledger calls by asset *)

Module Calls.

(** The asset a ledger call names. *)
Definition call_currency (c : call) : string :=
  match c with
  | Deposit cur _ => cur
  | Withdraw cur _ => cur
  end.

(** Whether a call passes the checks of [deposit] or [withdraw] on the
    balances [b], and so mutates the ledger and saves it. *)
Definition accepted (b : balances) (c : call) : bool :=
  match c with
  | Deposit _ a => negb (a <? 0)
  | Withdraw cur a => negb (a <? 0) && (a <=? get_balance b cur)
  end.

End Calls.

(** ** The exchange client ([exchange_client.py])

    The exchange itself is outside: a request either returns a value or
    raises, which the client catches. *)

Module ExchangeClient.

(** [self.metrics]: the latencies in milliseconds and two counters. *)
Record metrics := {
  latency_history : list float;
  errors : nat;
  requests : nat;
}.

(** The metrics set up by [__init__]. *)
Definition fresh : metrics :=
  {| latency_history := []; errors := 0; requests := 0 |}.

(** A ticker, as the exchange returns it. *)
Abbreviation ticker := (gmap string float).

(** [fetch_ticker]: [start] and [finish] are the two readings of the
    clock, [response] is [None] when the request raises. *)
Definition fetch_ticker (m : metrics) (start finish : float) (response : option ticker)
  : ticker * metrics :=
  let requests' := S (requests m) in
  match response with
  | Some t =>
      let lat_ms := (finish - start) * 1000 in
      let history := latency_history m ++ [lat_ms] in
      let history := if Nat.ltb 100 (length history) then tail history else history in
      (t, {| latency_history := history; errors := errors m; requests := requests' |})
  | None =>
      (∅, {| latency_history := latency_history m; errors := S (errors m);
             requests := requests' |})
  end.

(** One request: the clock readings and the exchange's answer. *)
Definition request := (float * float * option ticker)%type.

Definition fetch_all (m : metrics) (rs : list request) : metrics :=
  fold_left (fun m r => snd (fetch_ticker m (fst (fst r)) (snd (fst r)) (snd r))) rs m.

(** The latencies of the requests that were answered, in order. *)
Definition latencies (rs : list request) : list float :=
  omap (fun r => match snd r with
                 | Some _ => Some ((snd (fst r) - fst (fst r)) * 1000)
                 | None => None
                 end) rs.

(** [fetch_order_book]: the book of the exchange, or an empty book when
    the request raises. *)
Definition fetch_order_book (response : option book) : book :=
  match response with
  | Some order_book => order_book
  | None => <["bids" := []]> (<["asks" := []]> ∅)
  end.

(** [get_price_impact]; [response] is what the exchange answers to the
    order-book request, which is only made for a positive amount.  The
    loop over the levels is the one of the paper trade. *)
Definition get_price_impact (response : option book) (amount : float) (side : string)
  : outcome float :=
  if amount <=? 0 then Return 0
  else
    let order_book := fetch_order_book response in
    match order_book !! (if String.eqb side "buy" then "asks" else "bids") with
    | None => Raise KeyError
    | Some [] => Return 1
    | Some (((base_price, _) :: _) as levels) =>
        let '(total_cost, remaining_amount) := walk levels 0 amount in
        let avg_price :=
          if 0 <? remaining_amount then
            match Py.div total_cost (amount - remaining_amount) with
            | Raise e => Raise e
            | Return avg_price =>
                match Py.div remaining_amount amount with
                | Raise e => Raise e
                | Return ratio => Return (avg_price * (1 + ratio))
                end
            end
          else Py.div total_cost amount in
        match avg_price with
        | Raise e => Raise e
        | Return avg_price => Py.div (abs (avg_price - base_price)) base_price
        end
    end.

End ExchangeClient.

(** ** The whale watch lists ([blockchain_monitor.py])

    The parts of the monitor that do not talk to the chain. *)

Module BlockchainMonitor.

(** [self.whale_wallets]: network to the list of watched addresses. *)
Abbreviation wallets := (gmap string (list string)).

(** [add_whale_wallet]. *)
Definition add_whale_wallet (whale_wallets : wallets) (network address : string) : wallets :=
  let whale_wallets :=
    match whale_wallets !! network with
    | None => <[network := []]> whale_wallets
    | Some _ => whale_wallets
    end in
  let known := default [] (whale_wallets !! network) in
  if bool_decide (address ∈ known) then whale_wallets
  else <[network := known ++ [address]]> whale_wallets.

(** [get_monitored_wallets]. *)
Definition get_monitored_wallets (whale_wallets : wallets) (network : string) : list string :=
  default [] (whale_wallets !! network).

Section Watchlist.

(** [str.upper], and [self.token_map], the symbol-to-address table
    that the constructor fills through [Web3.to_checksum_address]. *)
Variable upper : string -> string.
Variable token_map : gmap string string.

(** The assets watched whatever the symbols are. *)
Definition defaults : list string := ["BTC"; "SOL"; "XRP"; "DOGE"; "ADA"].

(** [s.split('/')[0]]. *)
Definition base_of (s : string) : string :=
  match Py.split "/" s with
  | piece :: _ => piece
  | [] => EmptyString
  end.

(** The token that stands for an asset on the chain (lines 121-122):
    BTC is followed through WBTC. *)
Definition target_token (base : string) : string :=
  if String.eqb base "BTC" then "WBTC" else base.

(** One round of the loop of lines 115-127. *)
Definition watch_symbol (st : gset string * gmap string string) (s : string)
  : gset string * gmap string string :=
  let '(watchlist, active_tokens) := st in
  let base := upper (base_of s) in
  let watchlist := watchlist ∪ {[base]} in
  match token_map !! target_token base with
  | Some addr => (watchlist, <[base := addr]> active_tokens)
  | None => (watchlist, active_tokens)
  end.

(** [update_watchlist]: the new [self.watchlist] and
    [self.active_tokens]; the old ones are discarded. *)
Definition update_watchlist (symbols : list string) : gset string * gmap string string :=
  let watchlist : gset string := ∅ ∪ {["ETH"]} in
  let watchlist := fold_left (fun wl d => wl ∪ {[d]}) defaults watchlist in
  fold_left watch_symbol symbols (watchlist, ∅).

End Watchlist.

End BlockchainMonitor.

(** * Properties *)

(** ** The ledger primitives *)

Section Ledger.

Implicit Types (b : balances) (c k : string) (a x : float).

Lemma get_balance_insert b c x : get_balance (<[c := x]> b) c = x.
Proof. unfold get_balance. by rewrite lookup_insert_eq. Qed.

Lemma get_balance_insert_ne b c k x :
  c ≠ k -> get_balance (<[c := x]> b) k = get_balance b k.
Proof. intros Hne. unfold get_balance. by rewrite lookup_insert_ne. Qed.

(** A withdrawal that succeeds takes the amount off the one asset. *)
Lemma withdraw_ok b c a :
  (a <? 0) = false -> (a <=? get_balance b c) = true ->
  withdraw b c a = (true, <[c := get_balance b c - a]> b).
Proof. intros Hneg Hle. unfold withdraw. by rewrite Hneg, Hle. Qed.

(** A withdrawal that fails changes nothing. *)
Lemma withdraw_fails_unchanged b c a :
  fst (withdraw b c a) = false -> snd (withdraw b c a) = b.
Proof.
  unfold withdraw. destruct (a <? 0); [done|].
  destruct (a <=? get_balance b c); [discriminate | done].
Qed.

Lemma withdraw_negative b c a : (a <? 0) = true -> withdraw b c a = (false, b).
Proof. intros H. unfold withdraw. by rewrite H. Qed.

Lemma withdraw_insufficient b c a :
  (a <=? get_balance b c) = false -> withdraw b c a = (false, b).
Proof.
  intros H. unfold withdraw. destruct (a <? 0); [done|]. by rewrite H.
Qed.

Lemma deposit_negative b c a : (a <? 0) = true -> deposit b c a = b.
Proof. intros H. unfold deposit. by rewrite H. Qed.

Lemma deposit_ok b c a :
  (a <? 0) = false -> deposit b c a = <[c := get_balance b c + a]> b.
Proof. intros H. unfold deposit. by rewrite H. Qed.

End Ledger.

(** ** Symbols *)

Section Symbols.

Lemma split_nonempty sep s : Py.split sep s <> [].
Proof.
  destruct s as [|ch s]; simpl; [done|].
  destruct (Ascii.eqb ch sep); [done|].
  destruct (Py.split sep s); done.
Qed.

(** A split yields one piece more than there are separators. *)
Lemma split_length sep s : length (Py.split sep s) = S (Py.count sep s).
Proof.
  induction s as [|ch s IH]; simpl; [done|].
  destruct (Ascii.eqb ch sep); simpl.
  - by rewrite IH.
  - destruct (Py.split sep s) as [|piece pieces] eqn:E.
    + by destruct (split_nonempty sep s).
    + simpl in *. by rewrite IH.
Qed.

(** The unpacking [base, quote = symbol.split('/')] goes through
    exactly for the symbols with one separator. *)
Lemma split_pair_iff s :
  (exists base quote, Py.split "/" s = [base; quote]) <-> Py.count "/" s = 1%nat.
Proof.
  pose proof (split_length "/" s) as Hlen. split.
  - intros (base & quote & E). rewrite E in Hlen. simpl in Hlen. lia.
  - intros Hc. rewrite Hc in Hlen.
    destruct (Py.split "/" s) as [|x [|y [|z l]]]; simpl in Hlen; try lia.
    by exists x, y.
Qed.

End Symbols.

(** ** Settlement *)

Section Settlement.

Variables (self : executor) (w : balances) (stamp : float).

Lemma guard_passes (price : option float) (ob : option book) :
  Py.truthy_opt price || book_truthy ob = true ->
  negb (Py.truthy_opt price) && negb (book_truthy ob) = false.
Proof. by destruct (Py.truthy_opt price), (book_truthy ob). Qed.

(** Once the symbol splits and a price was found, the call is its
    settlement. *)
Lemma paper_trade_is_settlement side symbol base quote amount price ob exec_price :
  Py.truthy_opt price || book_truthy ob = true ->
  Py.split "/" symbol = [base; quote] ->
  discover_price self side amount price ob = Return (Some exec_price) ->
  _execute_paper_trade self w stamp side symbol amount price ob =
    (Return (fst (settle self w stamp side base quote amount exec_price)),
     snd (settle self w stamp side base quote amount exec_price)).
Proof.
  intros Hg Hs Hp. unfold _execute_paper_trade.
  rewrite (guard_passes _ _ Hg), Hs, Hp.
  by destruct (settle self w stamp side base quote amount exec_price).
Qed.

Lemma settle_buy_ok base quote amount exec_price :
  base <> quote ->
  let total_cost := (amount * exec_price) * (1 + fee_pct self / 100) in
  (total_cost <? 0) = false ->
  (total_cost <=? get_balance w quote) = true ->
  (amount <? 0) = false ->
  exists w',
    settle self w stamp "buy" base quote amount exec_price =
      (Some (paper_fill stamp "buy" amount exec_price total_cost), w')
    /\ get_balance w' quote = get_balance w quote - total_cost
    /\ get_balance w' base = get_balance w base + amount
    /\ forall c, c <> base -> c <> quote -> get_balance w' c = get_balance w c.
Proof.
  intros Hne total_cost Hneg Hle Hamt.
  unfold settle. simpl String.eqb. cbv iota.
  change (total_cost_of self amount exec_price) with total_cost.
  rewrite (withdraw_ok _ _ _ Hneg Hle), (deposit_ok _ _ _ Hamt).
  eexists. split; [reflexivity|]. repeat split.
  - rewrite get_balance_insert_ne by done. apply get_balance_insert.
  - rewrite get_balance_insert.
    by rewrite (get_balance_insert_ne _ quote base) by done.
  - intros c Hb Hq. by rewrite !get_balance_insert_ne by done.
Qed.

Lemma settle_sell_ok base quote amount exec_price :
  base <> quote ->
  let proceeds := (amount * exec_price) * (1 - fee_pct self / 100) in
  (amount <? 0) = false ->
  (amount <=? get_balance w base) = true ->
  (proceeds <? 0) = false ->
  exists w',
    settle self w stamp "sell" base quote amount exec_price =
      (Some (paper_fill stamp "sell" amount exec_price proceeds), w')
    /\ get_balance w' base = get_balance w base - amount
    /\ get_balance w' quote = get_balance w quote + proceeds
    /\ forall c, c <> base -> c <> quote -> get_balance w' c = get_balance w c.
Proof.
  intros Hne proceeds Hamt Hle Hpos.
  unfold settle. simpl String.eqb. cbv iota.
  change (sell_proceeds_of self amount exec_price) with proceeds.
  rewrite (withdraw_ok _ _ _ Hamt Hle), (deposit_ok _ _ _ Hpos).
  eexists. split; [reflexivity|]. repeat split.
  - rewrite get_balance_insert_ne by done. apply get_balance_insert.
  - rewrite get_balance_insert.
    by rewrite (get_balance_insert_ne _ base quote) by done.
  - intros c Hb Hq. by rewrite !get_balance_insert_ne by done.
Qed.

(** A settlement that is refused leaves the wallet as it was. *)
Lemma settle_refused_unchanged side base quote amount exec_price :
  fst (settle self w stamp side base quote amount exec_price) = None ->
  snd (settle self w stamp side base quote amount exec_price) = w.
Proof.
  unfold settle. destruct (String.eqb side "buy").
  - pose proof (withdraw_fails_unchanged w quote (total_cost_of self amount exec_price)) as H.
    destruct (withdraw w quote (total_cost_of self amount exec_price)) as [[|] w1];
      [discriminate | intros _; by apply H].
  - destruct (String.eqb side "sell"); [|done].
    pose proof (withdraw_fails_unchanged w base amount) as H.
    destruct (withdraw w base amount) as [[|] w1];
      [discriminate | intros _; by apply H].
Qed.

End Settlement.

(** ** Conservation at settlement *)

Section Conservation.

(** C1, as amended.  A paper buy whose cost
    [(amount * exec_price) * (1 + fee_pct/100)] is not negative and is
    covered by the quote balance withdraws exactly that cost from the
    quote asset and deposits exactly [amount] to the base asset: the
    quote balance afterwards is the floating-point difference
    [pre - total_cost], the base balance the floating-point sum
    [pre + amount], and no other asset moves.  A paper sell of a
    covered amount mirrors it with the proceeds
    [(amount * exec_price) * (1 - fee_pct/100)].  The amount is not
    negative and the two assets of the pair differ. *)
Theorem paper_settlement_moves_stated_amounts
    (self : executor) (w : balances) (stamp : float) (symbol base quote : string)
    (amount : float) (price : option float) (ob : option book) (exec_price : float) :
  Py.truthy_opt price || book_truthy ob = true ->
  Py.split "/" symbol = [base; quote] ->
  base <> quote ->
  (amount <? 0) = false ->
  (discover_price self "buy" amount price ob = Return (Some exec_price) ->
   let total_cost := (amount * exec_price) * (1 + fee_pct self / 100) in
   (total_cost <? 0) = false ->
   (total_cost <=? get_balance w quote) = true ->
   exists w',
     _execute_paper_trade self w stamp "buy" symbol amount price ob =
       (Return (Some (paper_fill stamp "buy" amount exec_price total_cost)), w')
     /\ get_balance w' quote = get_balance w quote - total_cost
     /\ get_balance w' base = get_balance w base + amount
     /\ forall c, c <> base -> c <> quote -> get_balance w' c = get_balance w c)
  /\
  (discover_price self "sell" amount price ob = Return (Some exec_price) ->
   let proceeds := (amount * exec_price) * (1 - fee_pct self / 100) in
   (proceeds <? 0) = false ->
   (amount <=? get_balance w base) = true ->
   exists w',
     _execute_paper_trade self w stamp "sell" symbol amount price ob =
       (Return (Some (paper_fill stamp "sell" amount exec_price proceeds)), w')
     /\ get_balance w' base = get_balance w base - amount
     /\ get_balance w' quote = get_balance w quote + proceeds
     /\ forall c, c <> base -> c <> quote -> get_balance w' c = get_balance w c).
Proof.
  intros Hg Hs Hne Hamt. split.
  - intros Hp total_cost Hneg Hle.
    destruct (settle_buy_ok self w stamp base quote amount exec_price Hne Hneg Hle Hamt)
      as (w' & Hset & Hrest).
    exists w'. split; [|exact Hrest].
    rewrite (paper_trade_is_settlement self w stamp _ _ _ _ _ _ _ _ Hg Hs Hp).
    by rewrite Hset.
  - intros Hp proceeds Hpos Hle.
    destruct (settle_sell_ok self w stamp base quote amount exec_price Hne Hamt Hle Hpos)
      as (w' & Hset & Hrest).
    exists w'. split; [|exact Hrest].
    rewrite (paper_trade_is_settlement self w stamp _ _ _ _ _ _ _ _ Hg Hs Hp).
    by rewrite Hset.
Qed.

(** The theorem at a wallet of 10000 USD and 2 BTC, one BTC at the
    price 100 with a fee of 0.1 percent. *)
Lemma paper_settlement_moves_stated_amounts_witness :
  let w := Sample.wallet_of 10000 2 in
  let self := Sample.with_fee w in
  (exists w',
     _execute_paper_trade self w 0 "buy" "BTC/USD" 1 (Some 100) None =
       (Return (Some (paper_fill 0 "buy" 1 100 ((1 * 100) * (1 + 0.1 / 100)))), w')
     /\ get_balance w' "USD" = 10000 - (1 * 100) * (1 + 0.1 / 100)
     /\ get_balance w' "BTC" = 2 + 1)
  /\
  (exists w',
     _execute_paper_trade self w 0 "sell" "BTC/USD" 1 (Some 100) None =
       (Return (Some (paper_fill 0 "sell" 1 100 ((1 * 100) * (1 - 0.1 / 100)))), w')
     /\ get_balance w' "BTC" = 2 - 1
     /\ get_balance w' "USD" = 10000 + (1 * 100) * (1 - 0.1 / 100)).
Proof.
  intros w self.
  destruct (paper_settlement_moves_stated_amounts self w 0 "BTC/USD" "BTC" "USD"
              1 (Some 100) None 100) as [Hbuy Hsell];
    [reflexivity | reflexivity | discriminate | reflexivity |].
  split.
  - destruct Hbuy as (w' & H1 & H2 & H3 & _); [reflexivity ..|].
    exists w'. repeat split; assumption.
  - destruct Hsell as (w' & H1 & H2 & H3 & _); [reflexivity ..|].
    exists w'. repeat split; assumption.
Defined.

(** C1 as stated fails: with 0.9 USD and 0.9 BTC in the wallet, a buy
    of 0.2 BTC at the price 1 and a sell of 0.2 BTC both settle, and
    afterwards [balance + 0.2 == 0.9] is false for the asset paid:
    [0.9 - 0.2] is [0.7] and [0.7 + 0.2] is [0.8999999999999999]. *)
Lemma paper_settlement_sum_not_exact :
  let w := Sample.wallet_of 0.9 0.9 in
  let self := Sample.plain w in
  (exists w',
     _execute_paper_trade self w 0 "buy" "BTC/USD" 0.2 (Some 1) None =
       (Return (Some (paper_fill 0 "buy" 0.2 1 0.2)), w')
     /\ (0.2 <=? get_balance w "USD") = true
     /\ (get_balance w' "USD" + 0.2 =? get_balance w "USD") = false)
  /\
  (exists w',
     _execute_paper_trade self w 0 "sell" "BTC/USD" 0.2 (Some 1) None =
       (Return (Some (paper_fill 0 "sell" 0.2 1 0.2)), w')
     /\ (0.2 <=? get_balance w "BTC") = true
     /\ (get_balance w' "BTC" + 0.2 =? get_balance w "BTC") = false).
Proof.
  intros w self. split.
  - exists (snd (_execute_paper_trade self w 0 "buy" "BTC/USD" 0.2 (Some 1) None)).
    repeat split; vm_compute; reflexivity.
  - exists (snd (_execute_paper_trade self w 0 "sell" "BTC/USD" 0.2 (Some 1) None)).
    repeat split; vm_compute; reflexivity.
Qed.

End Conservation.

(** ** Floating-point order facts *)

Section FloatOrder.

Lemma Prim2SF_zero : Prim2SF 0 = S754_zero false.
Proof. reflexivity. Qed.

(** [r <= 0] excludes [r > 0]. *)
Lemma leb_zero_not_gt (r : float) : (r <=? 0) = true -> (0 <? r) = false.
Proof.
  rewrite leb_spec, ltb_spec, Prim2SF_zero.
  destruct (Prim2SF r) as [s|s| |s m e]; try destruct s; done.
Qed.

(** [r > 0] excludes [r <= 0]. *)
Lemma gt_zero_not_leb (r : float) : (0 <? r) = true -> (r <=? 0) = false.
Proof.
  rewrite leb_spec, ltb_spec, Prim2SF_zero.
  destruct (Prim2SF r) as [s|s| |s m e]; try destruct s; done.
Qed.


End FloatOrder.

(** ** The book walk *)

Section BookWalk.

(** The loop of the code computes what the specification's wording
    describes: the running total is the sum of [fill * price] over the
    consumed levels, the running remainder what is left unfilled. *)
Lemma walk_consumed (levels : list level) (total_cost remaining_amount : float) :
  walk levels total_cost remaining_amount =
    (fold_left (fun acc fp => acc + fst fp * snd fp)
       (Spec.consumed levels remaining_amount) total_cost,
     Spec.unfilled levels remaining_amount).
Proof.
  revert total_cost remaining_amount.
  induction levels as [|[p v] rest IH]; intros total_cost remaining_amount; simpl.
  - reflexivity.
  - destruct (remaining_amount - Py.min remaining_amount v <=? 0); simpl.
    + reflexivity.
    + apply IH.
Qed.

(** The consumed levels are a prefix of the book side, in its order. *)
Lemma consumed_prices_prefix (levels : list level) (remaining_amount : float) :
  map snd (Spec.consumed levels remaining_amount) `prefix_of` map fst levels.
Proof.
  revert remaining_amount.
  induction levels as [|[p v] rest IH]; intros remaining_amount; simpl.
  - done.
  - apply prefix_cons.
    destruct (remaining_amount - Py.min remaining_amount v <=? 0); simpl.
    + apply prefix_nil.
    + apply IH.
Qed.

Lemma book_truthy_lookup (d : book) (key : string) (levels : list level) :
  d !! key = Some levels -> book_truthy (Some d) = true.
Proof.
  intros Hl. unfold book_truthy.
  destruct (Nat.eqb (size d) 0) eqn:E; [|done].
  apply Nat.eqb_eq, map_size_empty_iff in E. by rewrite E in Hl.
Qed.

Lemma div_nonzero (a b : float) : (b =? 0) = false -> Py.div a b = Return (a / b).
Proof. intros H. unfold Py.div. by rewrite H. Qed.

(** The price a non-empty side yields when the walk fills the amount. *)
Lemma book_price_filled side (levels : list level) (amount : float) :
  (amount =? 0) = false ->
  (Spec.unfilled levels amount <=? 0) = true ->
  book_price side levels amount =
    Return (Spec.vwap (Spec.consumed levels amount) amount).
Proof.
  intros Ha Hr. unfold book_price. rewrite walk_consumed.
  rewrite (leb_zero_not_gt _ Hr). by apply div_nonzero.
Qed.

(** The price a non-empty side yields when it runs out first. *)
Lemma book_price_exhausted side (levels : list level) (amount last_p last_v : float) :
  (amount =? 0) = false ->
  Py.last_item levels = Some (last_p, last_v) ->
  (0 <? Spec.unfilled levels amount) = true ->
  book_price side levels amount =
    Return ((Spec.notional (Spec.consumed levels amount)
             + Spec.unfilled levels amount * penalty_price side last_p) / amount).
Proof.
  intros Ha Hl Hr. unfold book_price. rewrite walk_consumed, Hr, Hl.
  by apply div_nonzero.
Qed.

Lemma last_item_nonempty {A} (l : list A) (x : A) : Py.last_item l = Some x -> l <> [].
Proof. by destruct l. Qed.

(** Price discovery against a non-empty side, a reference price given. *)
Lemma discover_price_book (self : executor) side (amount p : float)
    (d : book) (levels : list level) :
  d !! (if String.eqb side "buy" then "asks" else "bids") = Some levels ->
  levels <> [] ->
  discover_price self side amount (Some p) (Some d) =
    match book_price side levels amount with
    | Raise e => Raise e
    | Return exec_price => Return (Some exec_price)
    end.
Proof.
  intros Hl Hne. unfold discover_price.
  rewrite (book_truthy_lookup _ _ _ Hl). simpl default. rewrite Hl.
  destruct levels as [|l0 ls]; [done|].
  by destruct (book_price side (l0 :: ls) amount).
Qed.

End BookWalk.

(** ** Book-walk pricing *)

Section BookPricing.

(** C2, as amended.  For a buy (asks) or a sell (bids) given a
    reference price and a non-empty book side on which the walk's
    running remainder - the amount less the successive fills, in
    floating point - reaches [<= 0], the walk consumes the levels in
    the book's order, a prefix of the side, filling
    [min(remaining_amount, level_volume)] at each.  For an amount other
    than zero the execution price is the sum of [fill * price] over the
    consumed levels divided by the amount, the volume-weighted average
    price as the floating-point arithmetic computes it; for an amount
    of zero the division [total_cost / amount] of line 142 raises
    [ZeroDivisionError] and no price comes back. *)
Theorem book_walk_price_is_vwap (self : executor) (side : string) (amount p : float)
    (d : book) (levels : list level) :
  d !! (if String.eqb side "buy" then "asks" else "bids") = Some levels ->
  levels <> [] ->
  (Spec.unfilled levels amount <=? 0) = true ->
  walk levels 0 amount =
    (Spec.notional (Spec.consumed levels amount), Spec.unfilled levels amount)
  /\ map snd (Spec.consumed levels amount) `prefix_of` map fst levels
  /\ discover_price self side amount (Some p) (Some d) =
       if amount =? 0 then Raise ZeroDivisionError
       else Return (Some (Spec.vwap (Spec.consumed levels amount) amount)).
Proof.
  intros Hl Hne Hr. split; [apply walk_consumed|].
  split; [apply consumed_prices_prefix|].
  rewrite (discover_price_book self side amount p d levels Hl Hne).
  unfold book_price. rewrite walk_consumed, (leb_zero_not_gt _ Hr).
  unfold Py.div, Spec.vwap, Spec.notional.
  by destruct (amount =? 0).
Qed.

(** The specification's example, asks [[100,1],[101,2]] and amount 2,
    and the same asks with the amount 0. *)
Lemma book_walk_price_is_vwap_witness :
  let asks := [(100, 1); (101, 2)] in
  Spec.consumed asks 2 = [(1, 100); (1, 101)]
  /\ discover_price (Sample.plain ∅) "buy" 2 (Some 100) (Some (Sample.book_of asks []))
     = Return (Some 100.5)
  /\ discover_price (Sample.plain ∅) "buy" 0 (Some 100) (Some (Sample.book_of asks []))
     = Raise ZeroDivisionError.
Proof.
  intros asks.
  destruct (book_walk_price_is_vwap (Sample.plain ∅) "buy" 2 100
              (Sample.book_of asks []) asks) as (_ & _ & Hp);
    [reflexivity | discriminate | reflexivity |].
  destruct (book_walk_price_is_vwap (Sample.plain ∅) "buy" 0 100
              (Sample.book_of asks []) asks) as (_ & _ & Hz);
    [reflexivity | discriminate | reflexivity |].
  split; [reflexivity|]. split; [exact Hp | exact Hz].
Defined.

(** C2 as stated fails: the asks [[1,0.2],[2,0.2],[3,0.4]] hold a
    volume of 0.8 and the amount is 0.8; the three levels are consumed
    with fills 0.2, 0.2 and 0.4, whose volume-weighted average price
    is 2.25, but the walk's remainder ends at 5.55e-17, the penalty
    branch prices it and the execution price is 2.2500000000000004. *)
Lemma book_walk_full_depth_not_vwap :
  let asks := [(1, 0.2); (2, 0.2); (3, 0.4)] in
  (0.8 <=? Spec.total_volume asks) = true
  /\ Spec.consumed asks 0.8 = [(0.2, 1); (0.2, 2); (0.4, 3)]
  /\ Spec.vwap (Spec.consumed asks 0.8) 0.8 = 2.25
  /\ (0 <? Spec.unfilled asks 0.8) = true
  /\ discover_price (Sample.plain ∅) "buy" 0.8 (Some 1) (Some (Sample.book_of asks []))
     = Return (Some 2.2500000000000004)
  /\ (2.2500000000000004 =? 2.25) = false.
Proof. repeat split; vm_compute; reflexivity. Qed.

(** When a reference price is given and the side runs out with the
    walk's remainder still positive, the remainder is priced at the
    last level's price times 1.05 (buy) or 0.95 (sell), added to the
    total, and the whole amount settles at the blended average. *)
Lemma depth_exhaustion_blended_price (self : executor) (w : balances) (stamp : float)
    (symbol base quote : string) (amount p : float) (d : book)
    (levels : list level) (last_p last_v : float) :
  Py.split "/" symbol = [base; quote] ->
  (amount =? 0) = false ->
  Py.last_item levels = Some (last_p, last_v) ->
  (0 <? Spec.unfilled levels amount) = true ->
  (d !! "asks" = Some levels ->
   let blended := (Spec.notional (Spec.consumed levels amount)
                   + Spec.unfilled levels amount * (last_p * 1.05)) / amount in
   _execute_paper_trade self w stamp "buy" symbol amount (Some p) (Some d) =
     (Return (fst (settle self w stamp "buy" base quote amount blended)),
      snd (settle self w stamp "buy" base quote amount blended)))
  /\
  (d !! "bids" = Some levels ->
   let blended := (Spec.notional (Spec.consumed levels amount)
                   + Spec.unfilled levels amount * (last_p * 0.95)) / amount in
   _execute_paper_trade self w stamp "sell" symbol amount (Some p) (Some d) =
     (Return (fst (settle self w stamp "sell" base quote amount blended)),
      snd (settle self w stamp "sell" base quote amount blended))).
Proof.
  intros Hs Ha Hlast Hr.
  pose proof (last_item_nonempty _ _ Hlast) as Hne.
  split; intros Hl blended.
  - apply paper_trade_is_settlement; [by rewrite (book_truthy_lookup _ _ _ Hl), orb_true_r | done |].
    rewrite (discover_price_book self "buy" amount p d levels Hl Hne).
    by rewrite (book_price_exhausted "buy" levels amount last_p last_v Ha Hlast Hr).
  - apply paper_trade_is_settlement; [by rewrite (book_truthy_lookup _ _ _ Hl), orb_true_r | done |].
    rewrite (discover_price_book self "sell" amount p d levels Hl Hne).
    by rewrite (book_price_exhausted "sell" levels amount last_p last_v Ha Hlast Hr).
Qed.

(** C3 on the code.  The specification's example, amount 5 against
    asks [[100,1],[101,2]]: with a reference price the buy fills at
    [(100*1 + 101*2 + 106.05*2)/5]; without one - the signal carries
    no price, which the entry guard of the paper trade lets through when a
    book is given - the same order computes that price and then raises
    [TypeError] at the comparison [price > 0] that guards the log
    line, and nothing settles. *)
Theorem depth_exhaustion_without_price_raises :
  let w := Sample.wallet_of 10000 0 in
  let ob := Some (Sample.book_of [(100, 1); (101, 2)] []) in
  book_price "buy" [(100, 1); (101, 2)] 5 = Return ((100 * 1 + 101 * 2 + 106.05 * 2) / 5)
  /\ fst (_execute_paper_trade (Sample.plain w) w 0 "buy" "BTC/USD" 5 (Some 100) ob)
     = Return (Some (paper_fill 0 "buy" 5 ((100 * 1 + 101 * 2 + 106.05 * 2) / 5) 514.1))
  /\ _execute_paper_trade (Sample.plain w) w 0 "buy" "BTC/USD" 5 None ob
     = (Raise TypeError, w)
  /\ fst (execute_order (Sample.plain w) 1000 1000
            (Some {| sig_side := Some "buy"; sig_price := None; sig_strategy := None |})
            "BTC/USD" 5 ob)
     = Raise TypeError.
Proof. repeat split; vm_compute; reflexivity. Qed.

End BookPricing.

(** ** An order book with an empty side *)

Section EmptySide.




End EmptySide.

(** ** Malformed symbols *)

Section MalformedSymbol.

Lemma split_not_pair (symbol : string) :
  Py.count "/" symbol <> 1%nat ->
  forall A (k : string -> string -> A) (other : A),
    match Py.split "/" symbol with
    | [base; quote] => k base quote
    | _ => other
    end = other.
Proof.
  intros Hc A k other.
  destruct (Py.split "/" symbol) as [|x [|y [|z l]]] eqn:E; try reflexivity.
  destruct Hc. apply split_pair_iff. by exists x, y.
Qed.

(** C8, as amended.  Nothing checks a symbol when the engine is
    constructed - the constructor takes none.  A symbol that does not
    contain exactly one ['/'] makes every paper execution that gets
    past the price-or-book guard raise [ValueError] where the symbol
    is first used, the unpacking of its split, before any price is
    computed and with the wallet untouched; through [execute_order] in
    paper mode the exception escapes to the caller. *)
Theorem malformed_symbol_raises_at_first_use
    (self : executor) (w : balances) (now stamp : float) (side symbol : string)
    (amount : float) (price : option float) (ob : option book) :
  Py.count "/" symbol <> 1%nat ->
  Py.truthy_opt price || book_truthy ob = true ->
  _execute_paper_trade self w stamp side symbol amount price ob = (Raise ValueError, w)
  /\ (paper_wallet self = Some w ->
      (side = "buy" \/ side = "sell") ->
      (now - last_trade_time self <? min_trade_interval self) = false ->
      execute_order self now stamp
        (Some {| sig_side := Some side; sig_price := price; sig_strategy := None |})
        symbol amount ob = (Raise ValueError, set_wallet self w)).
Proof.
  intros Hc Hg.
  assert (Hx : _execute_paper_trade self w stamp side symbol amount price ob
               = (Raise ValueError, w)).
  { unfold _execute_paper_trade. rewrite (guard_passes _ _ Hg).
    by rewrite split_not_pair. }
  split; [exact Hx|].
  intros Hw Hside Hrate. unfold execute_order.
  assert (Hvalid : negb (String.eqb side "buy" || String.eqb side "sell") = false)
    by (by destruct Hside as [-> | ->]).
  cbn. rewrite Hvalid, Hrate, Hw.
  by rewrite Hx.
Qed.

(** The symbol ["BTCUSD"] in a buy at the price 100. *)
Lemma malformed_symbol_raises_at_first_use_witness :
  let w := Sample.wallet_of 10000 0 in
  _execute_paper_trade (Sample.plain w) w 0 "buy" "BTCUSD" 1 (Some 100) None
    = (Raise ValueError, w).
Proof.
  intros w.
  apply (malformed_symbol_raises_at_first_use (Sample.plain w) w 1000 0 "buy" "BTCUSD"
           1 (Some 100) None); [discriminate | reflexivity].
Defined.

(** C8 as stated fails: the engine is constructed without complaint,
    and the first order for the symbol ["BTCUSD"] lets a [ValueError]
    escape from the execution call. *)
Lemma malformed_symbol_escapes_execution :
  let w := Sample.wallet_of 10000 0 in
  let self := init (Some w) 0 0 60 in
  execute_order self 1000 1000 (Some (Sample.buy_at 100)) "BTCUSD" 1 None
    = (Raise ValueError, self).
Proof. vm_compute. reflexivity. Qed.

End MalformedSymbol.

(** ** The rate limit *)

Section RateLimit.

(** A call in paper mode never writes [last_trade_time]: the paper
    branch returns before the assignment of line 56. *)
Lemma paper_mode_keeps_last_trade_time
    (self : executor) (w : balances) (now stamp : float) (sig : option signal)
    (symbol : string) (amount : float) (ob : option book) :
  paper_wallet self = Some w ->
  last_trade_time (snd (execute_order self now stamp sig symbol amount ob))
    = last_trade_time self.
Proof.
  intros Hw. unfold execute_order.
  destruct (negb (signal_truthy sig)); [done|].
  destruct (sig ≫= sig_side) as [side|]; [|done].
  destruct (negb _); [done|].
  destruct (_ <? _); [done|].
  rewrite Hw.
  by destruct (_execute_paper_trade self w stamp side symbol amount
                 (sig ≫= sig_price) ob).
Qed.

(** A call that is turned away at signal validation or at the rate
    limit changes nothing. *)
Lemma rejected_early_unchanged
    (self : executor) (now stamp : float) (sig : option signal)
    (symbol : string) (amount : float) (ob : option book) (side : string) :
  sig ≫= sig_side = Some side ->
  negb (String.eqb side "buy" || String.eqb side "sell") = true
  \/ (now - last_trade_time self <? min_trade_interval self) = true ->
  execute_order self now stamp sig symbol amount ob = (Return None, self).
Proof.
  intros Hside Hrej. unfold execute_order.
  destruct (negb (signal_truthy sig)); [done|].
  rewrite Hside.
  destruct Hrej as [-> | Hrate]; [done|].
  destruct (negb _); [done|]. by rewrite Hrate.
Qed.

(** C4 on the code.  An engine over a wallet of 10000 USD with a
    60-second trade interval takes a buy of 1 BTC at 100 at time 1000
    and the same order one second later.  The first call settles and
    leaves [last_trade_time] at 0; the second, inside the interval, is
    not rejected: it settles too and the wallet pays twice.  The live
    branch does record the time of the call, and there the second call
    is rejected. *)
Theorem paper_fill_does_not_arm_rate_limit :
  let w := Sample.wallet_of 10000 0 in
  let order self t := execute_order self t t (Some (Sample.buy_at 100)) "BTC/USD" 1 None in
  let first := order (Sample.plain w) 1000 in
  let second := order (snd first) 1001 in
  fst first = Return (Some (paper_fill 1000 "buy" 1 100 100))
  /\ last_trade_time (snd first) = 0
  /\ (1001 - 1000 <? min_trade_interval (snd first)) = true
  /\ fst second = Return (Some (paper_fill 1001 "buy" 1 100 100))
  /\ paper_wallet (snd second) = Some (Sample.wallet_of 9800 2)
  /\ last_trade_time (snd (order Sample.live 1000)) = 1000
  /\ fst (order (snd (order Sample.live 1000)) 1001) = Return None.
Proof. repeat split; vm_compute; reflexivity. Qed.

End RateLimit.

(** ** The balances handed out *)

Section Snapshot.

Lemma deref_insert (h : store) (r : ref) (b : balances) : deref (<[r := b]> h) r = b.
Proof. unfold deref. by rewrite lookup_insert_eq. Qed.

(** C9, as amended.  [all_balances] returns the ledger's own mapping,
    not a copy: the reference it returns is the one the wallet holds
    and the store is unchanged; so an entry written through the
    returned mapping is what [balance_of] reads afterwards, and after
    any later deposit or withdrawal the returned mapping shows the
    wallet's new balances. *)
Theorem all_balances_is_the_ledger
    (h : store) (w : wallet) (k c : string) (v amount : float) :
  let r := fst (get_all_balances h w) in
  r = balances_ref w
  /\ snd (get_all_balances h w) = h
  /\ (forall c', dict_get h r c' = obj_get_balance h w c')
  /\ obj_get_balance (dict_set h r k v) w k = v
  /\ (forall c', dict_get (obj_deposit h w c amount) r c'
                 = obj_get_balance (obj_deposit h w c amount) w c')
  /\ (forall c', dict_get (snd (obj_withdraw h w c amount)) r c'
                 = obj_get_balance (snd (obj_withdraw h w c amount)) w c')
  /\ dict_get (obj_deposit h w c amount) r c
     = (if amount <? 0 then obj_get_balance h w c else obj_get_balance h w c + amount).
Proof.
  simpl. repeat split.
  - unfold obj_get_balance, dict_set. rewrite deref_insert. apply get_balance_insert.
  - unfold dict_get, obj_deposit, obj_get_balance. rewrite deref_insert.
    unfold deposit. destruct (amount <? 0); [done|]. apply get_balance_insert.
Qed.

(** C9 as stated fails: a wallet holds 100 USD; the caller writes 0
    under ["USD"] in the mapping that [all_balances] returned, and
    [balance_of] answers 0; and a deposit of 50 made after the call
    shows in the mapping returned before it. *)
Lemma all_balances_is_not_a_snapshot :
  let w := {| balances_ref := 0%nat |} in
  let h : store := <[0%nat := <["USD" := 100]> ∅]> ∅ in
  let snapshot := fst (get_all_balances h w) in
  obj_get_balance h w "USD" = 100
  /\ obj_get_balance (dict_set h snapshot "USD" 0) w "USD" = 0
  /\ dict_get h snapshot "USD" = 100
  /\ dict_get (obj_deposit h w "USD" 50) snapshot "USD" = 150.
Proof. repeat split; vm_compute; reflexivity. Qed.

End Snapshot.

(** ** Ladder orders *)

Section Ladder.

Variables (clock : nat -> float) (symbol : string).

Lemma set_wallet_same (self : executor) (w : balances) :
  paper_wallet self = Some w -> set_wallet self w = self.
Proof. destruct self; simpl; by intros ->. Qed.

(** The paper trade reads the fee and the slippage of the engine, not
    the wallet field. *)
Lemma settle_plan_set_wallet (self : executor) (w0 w : balances) (i : nat)
    (plan : list (float * float)) :
  Spec.settle_plan (set_wallet self w0) w clock symbol i plan
    = Spec.settle_plan self w clock symbol i plan.
Proof.
  revert w i. induction plan as [|[a p] rest IH]; intros w i; simpl; [done|].
  change (_execute_paper_trade (set_wallet self w0) w (clock i) "buy" symbol a (Some p) None)
    with (_execute_paper_trade self w (clock i) "buy" symbol a (Some p) None).
  destruct (_execute_paper_trade self w (clock i) "buy" symbol a (Some p) None)
    as [[res|e] w']; [|done].
  by rewrite IH.
Qed.

(** In paper mode the loop of the code is the rung-by-rung settlement
    of the plan, its results appended without the failed rungs. *)
Lemma ladder_loop_paper (total_amount current_price : float)
    (todo : list (float * float)) :
  forall (self : executor) (w : balances) (i : nat) (results : list fill),
    paper_wallet self = Some w ->
    ladder_loop self clock symbol total_amount current_price i todo results =
      match Spec.settle_plan self w clock symbol i
              (map (fun sm => (total_amount * fst sm, current_price * snd sm)) todo) with
      | (Raise e, w') => (Raise e, set_wallet self w')
      | (Return rs, w') => (Return (results ++ Spec.fills_of rs), set_wallet self w')
      end.
Proof.
  induction todo as [|[size_mult price_mult] rest IH]; intros self w i results Hw.
  - simpl. by rewrite app_nil_r, (set_wallet_same self w Hw).
  - simpl. rewrite Hw.
    destruct (_execute_paper_trade self w (clock i) "buy" symbol _ _ None)
      as [[res|e] w1]; [|done].
    rewrite (IH (set_wallet self w1) w1 (S i) (append_if results res) eq_refl).
    rewrite settle_plan_set_wallet.
    destruct (Spec.settle_plan self w1 clock symbol (S i) _) as [[rs|e] w2]; [|done].
    f_equal. f_equal. unfold Spec.fills_of.
    destruct res as [f|]; simpl; [|done]. by rewrite <- app_assoc.
Qed.


(** With a reference price and no book, price discovery is the flat
    slippage model. *)
Lemma discover_price_flat (self : executor) (side : string) (amount p : float) :
  discover_price self side amount (Some p) None =
    Return (Some (if 0 <? p then p * slip_mult self side else p)).
Proof. unfold discover_price. simpl. by destruct (0 <? p). Qed.

(** A paper trade with a reference price, no book and a well-formed
    symbol returns: no exception escapes. *)
Lemma paper_trade_flat_returns (self : executor) (w : balances) (stamp : float)
    (side base quote : string) (amount p : float) :
  Py.split "/" symbol = [base; quote] ->
  exists res w',
    _execute_paper_trade self w stamp side symbol amount (Some p) None = (Return res, w').
Proof.
  intros Hs. unfold _execute_paper_trade.
  destruct (negb (Py.truthy_opt (Some p)) && negb (book_truthy None)); [by eexists _, _|].
  rewrite Hs, discover_price_flat.
  destruct (settle self w stamp side base quote amount _) as [res w'].
  by exists res, w'.
Qed.

Lemma settle_plan_returns (self : executor) (base quote : string)
    (plan : list (float * float)) :
  Py.split "/" symbol = [base; quote] ->
  forall (w : balances) (i : nat),
    exists rs w',
      Spec.settle_plan self w clock symbol i plan = (Return rs, w')
      /\ length rs = length plan.
Proof.
  intros Hs. induction plan as [|[a p] rest IH]; intros w i; simpl.
  - by exists [], w.
  - destruct (paper_trade_flat_returns self w (clock i) "buy" base quote a p Hs)
      as (res & w1 & ->).
    destruct (IH w1 (S i)) as (rs & w2 & -> & Hlen).
    exists (res :: rs), w2. simpl. by rewrite Hlen.
Qed.

(** The ladder call once its guards are passed. *)
Lemma execute_ladder_order_paper (self : executor) (w : balances)
    (sig : option signal) (total_amount current_price : float) (ob : option book) :
  signal_truthy sig = true ->
  Py.truthy total_amount = true ->
  sig ≫= sig_price = Some current_price ->
  Py.truthy current_price = true ->
  paper_wallet self = Some w ->
  execute_ladder_order self clock sig symbol total_amount ob =
    match Spec.settle_plan self w clock symbol 0
            (Spec.ladder_plan total_amount current_price) with
    | (Raise e, w') => (Raise e, set_wallet self w')
    | (Return rs, w') =>
        (Return (Spec.some_if_any (Spec.fills_of rs)), set_wallet self w')
    end.
Proof.
  intros Hsig Hamt Hprice Hp Hw. unfold execute_ladder_order.
  rewrite Hsig, Hamt, Hprice, Hp. simpl negb. simpl orb. cbv iota.
  rewrite (ladder_loop_paper total_amount current_price rungs self w 0 [] Hw).
  change (map _ rungs) with (Spec.ladder_plan total_amount current_price).
  destruct (Spec.settle_plan self w clock symbol 0 _) as [[rs|e] w']; [|done].
  simpl app. by destruct (Spec.fills_of rs).
Qed.

End Ladder.

Section LadderClaims.

Variables (clock : nat -> float) (symbol : string).

Lemma fills_of_nil_iff (rs : list (option fill)) :
  Spec.fills_of rs = [] <-> Forall (fun r => r = None) rs.
Proof.
  unfold Spec.fills_of. induction rs as [|[f|] rs IH]; simpl.
  - split; [constructor | done].
  - split; [done | by inversion 1].
  - rewrite IH. split; [by constructor | by inversion 1].
Qed.

(** C5, as amended.  A ladder execution in paper mode over a
    well-formed symbol settles the three rungs of its plan one after
    the other, each ending in a fill or in [None]; the overall call
    returns the fills only, in rung order, with the failed rungs left
    out - no entry marks them - and [None] when no rung was filled. *)
Theorem ladder_returns_fills_without_gaps
    (self : executor) (w : balances) (sig : option signal)
    (total_amount current_price : float) (ob : option book) (base quote : string) :
  signal_truthy sig = true ->
  Py.truthy total_amount = true ->
  sig ≫= sig_price = Some current_price ->
  Py.truthy current_price = true ->
  paper_wallet self = Some w ->
  Py.split "/" symbol = [base; quote] ->
  exists (rs : list (option fill)) (w' : balances),
    Spec.settle_plan self w clock symbol 0 (Spec.ladder_plan total_amount current_price)
      = (Return rs, w')
    /\ length rs = 3%nat
    /\ execute_ladder_order self clock sig symbol total_amount ob
       = (Return (Spec.some_if_any (omap id rs)), set_wallet self w')
    /\ (Spec.some_if_any (omap id rs) = None <-> Forall (fun r => r = None) rs)
    /\ (forall fs, Spec.some_if_any (omap id rs) = Some fs ->
          fs `sublist_of` omap id rs /\ (length fs <= 3)%nat
          /\ length fs = length (filter (fun r => is_Some r) rs)).
Proof.
  intros Hsig Hamt Hprice Hp Hw Hs.
  destruct (settle_plan_returns clock symbol self base quote
              (Spec.ladder_plan total_amount current_price) Hs w 0)
    as (rs & w' & Hplan & Hlen).
  exists rs, w'. split; [exact Hplan|]. split; [exact Hlen|]. split.
  - rewrite (execute_ladder_order_paper clock symbol self w sig total_amount
               current_price ob Hsig Hamt Hprice Hp Hw).
    by rewrite Hplan.
  - split.
    + rewrite <- fills_of_nil_iff. unfold Spec.fills_of.
      destruct (omap id rs); simpl; split; done.
    + intros fs Hfs.
      assert (fs = omap id rs) as -> by (destruct (omap id rs); simpl in Hfs; congruence).
      split; [done|].
      assert (Hcount : length (omap id rs) = length (filter (fun r => is_Some r) rs)).
      { clear. induction rs as [|[f|] rs IH]; [done| |].
        - rewrite filter_cons_True by (by eexists). simpl. f_equal. exact IH.
        - rewrite filter_cons_False by (by intros [? ?]). exact IH. }
      split; [|exact Hcount].
      pose proof (length_filter (fun r => is_Some r) rs) as Hle.
      simpl in Hlen. lia.
Qed.


End LadderClaims.


(** The ladder over 100 units at the reference price 100, paid from
    2000 USD: the first rung is filled, the other two are not. *)
Lemma ladder_returns_fills_without_gaps_witness :
  let w := Sample.wallet_of 2000 0 in
  exists rs w',
    Spec.settle_plan (Sample.plain w) w (fun _ => 0) "BTC/USD" 0 (Spec.ladder_plan 100 100)
      = (Return rs, w')
    /\ execute_ladder_order (Sample.plain w) (fun _ => 0) (Some (Sample.buy_at 100))
         "BTC/USD" 100 None
       = (Return (Spec.some_if_any (omap id rs)), set_wallet (Sample.plain w) w').
Proof.
  intros w.
  destruct (ladder_returns_fills_without_gaps (fun _ => 0) "BTC/USD" (Sample.plain w) w
              (Some (Sample.buy_at 100)) 100 100 None "BTC" "USD")
    as (rs & w' & Hplan & _ & Hcall & _);
    [reflexivity | reflexivity | reflexivity | reflexivity | reflexivity | reflexivity |].
  exists rs, w'. split; assumption.
Defined.

(** C5 as stated fails: with 2000 USD the ladder over 100 units at the
    price 100 fills its first rung (cost 1980) and cannot pay the second
    and the third; the per-rung outcomes are a fill and two [None], but
    the call returns a list of one entry. *)
Lemma ladder_drops_failed_rungs :
  let w := Sample.wallet_of 2000 0 in
  let first := paper_fill 0 "buy" 20 99 1980 in
  fst (Spec.settle_plan (Sample.plain w) w (fun _ => 0) "BTC/USD" 0 (Spec.ladder_plan 100 100))
    = Return [Some first; None; None]
  /\ fst (execute_ladder_order (Sample.plain w) (fun _ => 0) (Some (Sample.buy_at 100))
            "BTC/USD" 100 None)
     = Return (Some [first])
  /\ length [first] <> length rungs.
Proof. repeat split; try (vm_compute; reflexivity). discriminate. Qed.

(** ** Signs of binary64 sums and differences

    The primitive operations are specified by the functions of
    [SpecFloat] on the representation [Prim2SF].  What the ledger
    needs from them is about signs only: a sum of two values [>= 0] is
    [>= 0], and so is [x - y] when [x >= y >= 0] and [y] is finite. *)

Section Rounding.

#[local] Open Scope Z_scope.

(** Shifting a non-negative mantissa to the right keeps it non-negative. *)
Lemma shr_1_nonneg mrs : 0 <= shr_m mrs -> 0 <= shr_m (shr_1 mrs).
Proof.
  destruct mrs as [m r s]. simpl.
  destruct m as [|p|p]; simpl; try lia; destruct p; simpl; lia.
Qed.

Lemma iter_shr_1_nonneg p :
  forall mrs, 0 <= shr_m mrs -> 0 <= shr_m (SpecFloat.iter_pos shr_1 p mrs).
Proof.
  induction p as [p IH|p IH|]; intros mrs H; simpl.
  - apply IH, IH, shr_1_nonneg, H.
  - apply IH, IH, H.
  - apply shr_1_nonneg, H.
Qed.

Lemma shr_nonneg mrs e n : 0 <= shr_m mrs -> 0 <= shr_m (fst (shr mrs e n)).
Proof.
  intros H. unfold shr. destruct n; simpl; try assumption.
  apply iter_shr_1_nonneg, H.
Qed.

Lemma shr_record_of_loc_m m l : shr_m (shr_record_of_loc m l) = m.
Proof. destruct l as [|[| |]]; reflexivity. Qed.

Lemma shr_fexp_nonneg m e l : 0 <= m -> 0 <= shr_m (fst (shr_fexp prec emax m e l)).
Proof.
  intros H. unfold shr_fexp. apply shr_nonneg. rewrite shr_record_of_loc_m. exact H.
Qed.

Lemma round_nearest_even_nonneg m l : 0 <= m -> 0 <= round_nearest_even m l.
Proof.
  intros H. unfold round_nearest_even.
  destruct l as [|[| |]]; try lia. destruct (Z.even m); lia.
Qed.

(** Rounding a non-negative mantissa yields a zero, or a finite value
    or an infinity of the requested sign: never NaN. *)
Lemma binary_round_aux_signed s m e l :
  0 <= m -> signed s (binary_round_aux prec emax s m e l).
Proof.
  intros H. unfold binary_round_aux.
  pose proof (shr_fexp_nonneg m e l H) as H1.
  destruct (shr_fexp prec emax m e l) as [mrs' e'].
  simpl in H1.
  pose proof (shr_fexp_nonneg _ e' loc_Exact
                (round_nearest_even_nonneg (shr_m mrs') (loc_of_shr_record mrs') H1)) as H2.
  destruct (shr_fexp prec emax _ e' loc_Exact) as [mrs'' e''].
  simpl in H2.
  destruct (shr_m mrs'') as [|p|p]; simpl; try lia; try exact I.
  destruct (e'' <=? emax - prec); reflexivity.
Qed.

Lemma binary_round_signed s m e : signed s (binary_round prec emax s m e).
Proof.
  unfold binary_round. destruct (shl_align _ _ _) as [mz ez].
  apply binary_round_aux_signed. lia.
Qed.

Lemma binary_normalize_signed m e sz :
  0 <= m -> signed false (binary_normalize prec emax m e sz).
Proof.
  intros H. unfold binary_normalize. destruct m as [|p|p]; try lia.
  - exact I.
  - apply binary_round_signed.
Qed.

(** The number of binary digits brackets the mantissa. *)
Lemma digits2_pos_bounds m :
  2 ^ (Zpos (digits2_pos m) - 1) <= Zpos m < 2 ^ Zpos (digits2_pos m).
Proof.
  induction m as [p IH|p IH|]; simpl digits2_pos.
  - rewrite Pos2Z.inj_succ.
    replace (Z.succ (Zpos (digits2_pos p)) - 1) with (Z.succ (Zpos (digits2_pos p) - 1)) by lia.
    rewrite !Z.pow_succ_r by lia. lia.
  - rewrite Pos2Z.inj_succ.
    replace (Z.succ (Zpos (digits2_pos p)) - 1) with (Z.succ (Zpos (digits2_pos p) - 1)) by lia.
    rewrite !Z.pow_succ_r by lia. lia.
  - simpl. lia.
Qed.

(** Aligning a mantissa to a smaller exponent multiplies it by the
    power of two between the exponents. *)
Lemma shl_align_fst mx ex ez :
  ez <= ex -> Zpos (fst (shl_align mx ex ez)) = Zpos mx * 2 ^ (ex - ez).
Proof.
  intros Hle. unfold shl_align.
  destruct (ez - ex) as [|d|d] eqn:E; simpl fst.
  - replace (ex - ez) with 0 by lia. simpl. lia.
  - lia.
  - replace (ex - ez) with (Zpos d) by lia.
    change (Pos.iter xO mx d) with (shift_pos d mx).
    rewrite shift_pos_correct. change (2 ^ Zpos d) with (Z.pow_pos 2 d). lia.
Qed.

(** Of two valid positive binary64 numbers, the one that compares
    greater or equal has the greater or equal aligned mantissa. *)
Lemma aligned_mantissa_le mx ex my ey :
  bounded prec emax mx ex = true -> bounded prec emax my ey = true ->
  SFcompare (S754_finite false my ey) (S754_finite false mx ex) = Some Lt
  \/ SFcompare (S754_finite false my ey) (S754_finite false mx ex) = Some Eq ->
  Zpos (fst (shl_align my ey (Z.min ex ey))) <= Zpos (fst (shl_align mx ex (Z.min ex ey))).
Proof.
  intros Hx Hy Hc.
  rewrite !shl_align_fst by lia.
  unfold bounded, canonical_mantissa, fexp in Hx, Hy.
  apply andb_prop in Hx as [Hx _]. apply andb_prop in Hy as [Hy _].
  apply Z.eqb_eq in Hx, Hy.
  change IntDef.Z.max with Z.max in Hx, Hy.
  change (SpecFloat.emin prec emax) with (-1074) in Hx, Hy.
  pose proof (digits2_pos_bounds mx) as Bx.
  pose proof (digits2_pos_bounds my) as By.
  simpl in Hc.
  destruct (ey ?= ex) eqn:E.
  - apply Z.compare_eq in E. subst ey.
    rewrite Z.min_id, Z.sub_diag, Z.pow_0_r, !Z.mul_1_r.
    assert (H : Pos.compare_cont Eq my mx <> Gt) by (destruct Hc as [Hc|Hc]; congruence).
    change (Pos.compare_cont Eq my mx) with (Pos.compare my mx) in H.
    clear - H. change ((my <= mx)%positive) in H. lia.
  - change (ey < ex) in E.
    rewrite Z.min_r by lia. rewrite Z.sub_diag, Z.pow_0_r, Z.mul_1_r.
    assert (Hdx : Zpos (digits2_pos mx) = prec) by (unfold prec, emax in *; lia).
    assert (Hdy : Zpos (digits2_pos my) <= prec) by (unfold prec, emax in *; lia).
    rewrite Hdx in Bx.
    assert (Hmy : Zpos my < 2 ^ prec).
    { destruct By as [_ By]. eapply Z.lt_le_trans; [exact By|].
      apply Z.pow_le_mono_r; lia. }
    assert (Hpow : 2 ^ 1 <= 2 ^ (ex - ey)) by (apply Z.pow_le_mono_r; lia).
    assert (Hprec : 2 ^ prec = 2 ^ (prec - 1) * 2 ^ 1) by reflexivity.
    nia.
  - destruct Hc as [Hc|Hc]; discriminate.
Qed.

Lemma SFadd_signed x y :
  signed false x -> signed false y -> signed false (SFadd prec emax x y).
Proof.
  destruct x as [sx|sx| |sx mx ex]; destruct y as [sy|sy| |sy my ey]; simpl;
    try tauto; try congruence.
  - intros _ _. destruct sx, sy; exact I.
  - intros -> ->. reflexivity.
  - intros -> ->. apply binary_normalize_signed. simpl. lia.
Qed.

Lemma SFsub_signed x y :
  valid_binary x = true -> valid_binary y = true ->
  signed false y -> (forall s, y <> S754_infinity s) ->
  SFleb y x = true ->
  signed false (SFsub prec emax x y).
Proof.
  intros Vx Vy Hy Hfin Hle.
  destruct y as [sy|sy| |sy my ey]; simpl in Hy; try tauto.
  - destruct x as [sx|sx| |sx mx ex]; simpl in *; try discriminate.
    + destruct sx, sy; exact I.
    + destruct sx; [discriminate | reflexivity].
    + destruct sx; [discriminate | reflexivity].
  - destruct (Hfin sy eq_refl).
  - subst sy.
    destruct x as [sx|sx| |sx mx ex]; simpl in Hle; try discriminate.
    + unfold SFleb in Hle. simpl in Hle. destruct sx; [discriminate|]. reflexivity.
    + unfold SFleb in Hle.
      destruct sx; [simpl in Hle; discriminate|].
      simpl SFsub. apply binary_normalize_signed.
      assert (Hc : SFcompare (S754_finite false my ey) (S754_finite false mx ex) = Some Lt
                   \/ SFcompare (S754_finite false my ey) (S754_finite false mx ex) = Some Eq).
      { destruct (SFcompare _ _) as [[| |]|]; try discriminate; auto. }
      pose proof (aligned_mantissa_le mx ex my ey Vx Vy Hc). simpl. lia.
Qed.

(** A strict comparison read the other way round. *)
Lemma SFcompare_lt_gt x y : SFcompare x y = Some Lt -> SFcompare y x = Some Gt.
Proof.
  destruct x as [sx|sx| |sx mx ex]; destruct y as [sy|sy| |sy my ey]; simpl;
    try destruct sx; try destruct sy; try discriminate; try reflexivity.
  - rewrite (Z.compare_antisym ex ey).
    destruct (ex ?= ey); simpl; try discriminate; try reflexivity.
    change (Pos.compare_cont Eq mx my) with (Pos.compare mx my).
    change (Pos.compare_cont Eq my mx) with (Pos.compare my mx).
    rewrite (Pos.compare_antisym mx my).
    destruct (mx ?= my)%positive; simpl; try discriminate; reflexivity.
  - rewrite (Z.compare_antisym ex ey).
    destruct (ex ?= ey); simpl; try discriminate; try reflexivity.
    change (Pos.compare_cont Eq mx my) with (Pos.compare mx my).
    change (Pos.compare_cont Eq my mx) with (Pos.compare my mx).
    rewrite (Pos.compare_antisym mx my).
    destruct (mx ?= my)%positive; simpl; try discriminate; reflexivity.
Qed.

End Rounding.

(** ** The ledger never goes below zero *)

Section Solvency.

Lemma nonneg_signed (x : float) : nonneg x = true <-> signed false (Prim2SF x).
Proof.
  unfold nonneg. rewrite leb_spec, Prim2SF_zero.
  destruct (Prim2SF x) as [s|[|]| |[|] m e]; simpl; split; try done.
Qed.

Lemma add_nonneg (x y : float) :
  nonneg x = true -> nonneg y = true -> nonneg (x + y) = true.
Proof.
  rewrite !nonneg_signed, add_spec. apply SFadd_signed.
Qed.

(** A finite amount that passed the guard [amount < 0] is [>= 0]. *)
Lemma guard_finite_nonneg (a : float) :
  (a <? 0) = false -> finite a = true -> nonneg a = true.
Proof.
  rewrite nonneg_signed, ltb_spec, Prim2SF_zero. unfold finite.
  destruct (Prim2SF a) as [s|s| |[|] m e]; simpl; try done.
Qed.

Lemma sub_nonneg (x y : float) :
  (y <? 0) = false -> (y <=? x) = true -> finite y = true ->
  nonneg (x - y) = true.
Proof.
  intros Hneg Hle Hfin.
  pose proof (guard_finite_nonneg y Hneg Hfin) as Hy.
  rewrite nonneg_signed in Hy. rewrite nonneg_signed, sub_spec.
  apply SFsub_signed; try apply Prim2SF_valid; try assumption.
  - intros s E. unfold finite in Hfin. by rewrite E in Hfin.
  - by rewrite <- leb_spec.
Qed.

(** An amount above the balance fails the test [current >= amount]. *)
Lemma exceeds_not_covered (current a : float) :
  (current <? a) = true -> (a <=? current) = false.
Proof.
  rewrite ltb_spec, leb_spec. unfold SFltb, SFleb.
  destruct (SFcompare (Prim2SF current) (Prim2SF a)) as [[| |]|] eqn:E; try discriminate.
  intros _. by rewrite (SFcompare_lt_gt _ _ E).
Qed.

Lemma all_nonneg_insert (b : balances) (c : string) (x : float) :
  all_nonneg b -> nonneg x = true -> all_nonneg (<[c := x]> b).
Proof.
  intros Hb Hx asset. destruct (decide (c = asset)) as [<-|Hne].
  - by rewrite get_balance_insert.
  - rewrite get_balance_insert_ne by done. apply Hb.
Qed.

Lemma deposit_keeps_nonneg (b : balances) (c : string) (a : float) :
  all_nonneg b -> finite a = true -> all_nonneg (deposit b c a).
Proof.
  intros Hb Hfin. unfold deposit. destruct (a <? 0) eqn:Hneg; [done|].
  apply all_nonneg_insert; [done|].
  apply add_nonneg; [apply Hb | by apply guard_finite_nonneg].
Qed.

Lemma withdraw_keeps_nonneg (b : balances) (c : string) (a : float) :
  all_nonneg b -> finite a = true -> all_nonneg (snd (withdraw b c a)).
Proof.
  intros Hb Hfin. unfold withdraw. destruct (a <? 0) eqn:Hneg; [done|].
  destruct (a <=? get_balance b c) eqn:Hle; [|done].
  apply all_nonneg_insert; [done|]. by apply sub_nonneg.
Qed.

Lemma trace_keeps_nonneg (cs : list call) :
  forall b : balances,
    all_nonneg b ->
    Forall (fun c => finite (call_amount c) = true) cs ->
    Forall all_nonneg (trace b cs).
Proof.
  induction cs as [|c cs IH]; intros b Hb Hfin; simpl; [constructor|].
  inversion Hfin as [|? ? Hc Hcs]; subst.
  assert (Hb' : all_nonneg (run_call b c)).
  { destruct c as [cur a | cur a]; simpl in *.
    - by apply deposit_keeps_nonneg.
    - by apply withdraw_keeps_nonneg. }
  constructor; [exact Hb' | by apply IH].
Qed.

(** C7, as amended.  For every sequence of deposit and withdraw calls
    whose amounts are finite numbers (neither NaN nor an infinity),
    starting from balances [>= 0], the balance of every asset is [>= 0]
    after every call of the sequence.  For any amount: a withdraw whose
    amount exceeds [balance_of(asset)], or whose amount is negative,
    returns false and leaves all balances unchanged, and a
    negative-amount deposit performs no mutation. *)
Theorem ledger_balances_stay_nonneg (b : balances) (cs : list call) :
  all_nonneg b ->
  Forall (fun c => finite (call_amount c) = true) cs ->
  (forall b', b' ∈ trace b cs -> forall asset, (0 <=? get_balance b' asset) = true)
  /\ (forall (w : balances) asset a,
        (get_balance w asset <? a) = true \/ (a <? 0) = true ->
        withdraw w asset a = (false, w))
  /\ (forall (w : balances) asset a, (a <? 0) = true -> deposit w asset a = w).
Proof.
  intros Hb Hfin. split; [|split].
  - intros b' Hin asset.
    pose proof (trace_keeps_nonneg cs b Hb Hfin) as Hall.
    rewrite Forall_forall in Hall. by apply (Hall b' Hin asset).
  - intros w asset a [Hex | Hneg].
    + apply withdraw_insufficient. by apply exceeds_not_covered.
    + by apply withdraw_negative.
  - intros w asset a Hneg. by apply deposit_negative.
Qed.

Lemma sample_wallet_nonneg : all_nonneg (Sample.wallet_of 100 1).
Proof.
  intros asset. unfold Sample.wallet_of.
  destruct (decide ("USD" = asset)) as [<-|Hu]; [reflexivity|].
  rewrite get_balance_insert_ne by done.
  destruct (decide ("BTC" = asset)) as [<-|Hb]; [reflexivity|].
  rewrite get_balance_insert_ne by done. reflexivity.
Defined.

(** A wallet of 100 USD and 1 BTC through a deposit, a covered and an
    uncovered withdrawal and a negative deposit: after the second call
    30 USD are left. *)
Lemma ledger_balances_stay_nonneg_witness :
  let b := Sample.wallet_of 100 1 in
  let cs := [Deposit "USD" 50; Withdraw "USD" 120; Withdraw "BTC" 2; Deposit "BTC" (-1)] in
  trace b cs !! 1%nat = Some (Sample.wallet_of 30 1)
  /\ (0 <=? get_balance (Sample.wallet_of 30 1) "USD") = true.
Proof.
  intros b cs.
  destruct (ledger_balances_stay_nonneg b cs) as [Hstay _].
  - exact sample_wallet_nonneg.
  - repeat constructor.
  - split; [vm_compute; reflexivity|].
    apply (Hstay (Sample.wallet_of 30 1)).
    apply elem_of_cons. right. apply elem_of_cons. left.
    vm_compute. reflexivity.
Defined.

(** C7 as stated fails.  From a balance of 100 USD, a deposit of NaN
    passes the guard [amount < 0] and leaves the balance NaN, which is
    not [>= 0]; and a deposit of infinity followed by a withdrawal of
    infinity passes both guards and leaves NaN as well. *)
Lemma ledger_nan_balance :
  let b : balances := <["USD" := 100]> ∅ in
  (0 <=? get_balance b "USD") = true
  /\ (0 <=? get_balance (run_call b (Deposit "USD" nan)) "USD") = false
  /\ withdraw (deposit b "USD" infinity) "USD" infinity
     = (true, <["USD" := nan]> ∅)
  /\ (0 <=? nan) = false.
Proof. repeat split; vm_compute; reflexivity. Qed.

End Solvency.

(** * Further properties of the code *)

(** ** What a paper trade leaves alone *)

Section PaperTradeFrame.

Lemma deposit_other (b : balances) (c k : string) (a : float) :
  c <> k -> get_balance (deposit b c a) k = get_balance b k.
Proof.
  intros Hne. unfold deposit. destruct (a <? 0); [done|].
  by apply get_balance_insert_ne.
Qed.

Lemma withdraw_other (b : balances) (c k : string) (a : float) :
  c <> k -> get_balance (snd (withdraw b c a)) k = get_balance b k.
Proof.
  intros Hne. unfold withdraw. destruct (a <? 0); [done|].
  destruct (a <=? get_balance b c); [|done]. by apply get_balance_insert_ne.
Qed.

Lemma settle_other (self : executor) (w : balances) (stamp : float)
    (side base quote : string) (amount exec_price : float) (k : string) :
  k <> base -> k <> quote ->
  get_balance (snd (settle self w stamp side base quote amount exec_price)) k
    = get_balance w k.
Proof.
  intros Hb Hq. unfold settle. destruct (String.eqb side "buy").
  - pose proof (withdraw_other w quote k (total_cost_of self amount exec_price)) as Hw.
    destruct (withdraw w quote (total_cost_of self amount exec_price)) as [[|] w1];
      simpl in *; [|by apply Hw].
    rewrite deposit_other by done. by apply Hw.
  - destruct (String.eqb side "sell"); [|done].
    pose proof (withdraw_other w base k amount) as Hw.
    destruct (withdraw w base amount) as [[|] w1]; simpl in *; [|by apply Hw].
    rewrite deposit_other by done. by apply Hw.
Qed.

(** The wallet changes only when a fill is returned: a paper trade
    that returns [None] or raises has not touched any balance. *)
Theorem paper_trade_without_fill_keeps_wallet
    (self : executor) (w : balances) (stamp : float) (side symbol : string)
    (amount : float) (price : option float) (ob : option book) :
  let r := _execute_paper_trade self w stamp side symbol amount price ob in
  snd r = w \/ exists f, fst r = Return (Some f).
Proof.
  unfold _execute_paper_trade.
  destruct (negb (Py.truthy_opt price) && negb (book_truthy ob)); [by left|].
  destruct (Py.split "/" symbol) as [|base [|quote [|x l]]]; try (by left).
  destruct (discover_price self side amount price ob) as [[exec_price|]|e]; try (by left).
  pose proof (settle_refused_unchanged self w stamp side base quote amount exec_price) as H.
  destruct (settle self w stamp side base quote amount exec_price) as [[f|] w']; simpl in *.
  - right. by exists f.
  - left. by apply H.
Qed.

(** A paper trade moves no asset but the two named in its symbol,
    whatever its outcome. *)
Theorem paper_trade_touches_only_its_pair
    (self : executor) (w : balances) (stamp : float) (side symbol : string)
    (amount : float) (price : option float) (ob : option book) (asset : string) :
  asset ∉ Py.split "/" symbol ->
  get_balance (snd (_execute_paper_trade self w stamp side symbol amount price ob)) asset
    = get_balance w asset.
Proof.
  intros Hnot. unfold _execute_paper_trade.
  destruct (negb (Py.truthy_opt price) && negb (book_truthy ob)); [done|].
  destruct (Py.split "/" symbol) as [|base [|quote [|x l]]]; try done.
  destruct (discover_price self side amount price ob) as [[exec_price|]|e]; try done.
  pose proof (settle_other self w stamp side base quote amount exec_price asset) as H.
  destruct (settle self w stamp side base quote amount exec_price) as [res w'].
  simpl in *. apply H.
  - intros ->. apply Hnot. apply elem_of_cons. by left.
  - intros ->. apply Hnot. apply elem_of_cons. right. apply elem_of_cons. by left.
Qed.

(** A buy of BTC against USD with 5 ETH in the wallet. *)
Lemma paper_trade_touches_only_its_pair_witness :
  let w := <["ETH" := 5]> (Sample.wallet_of 10000 0) in
  get_balance (snd (_execute_paper_trade (Sample.plain w) w 0 "buy" "BTC/USD" 1
                      (Some 100) None)) "ETH" = 5.
Proof.
  intros w.
  rewrite (paper_trade_touches_only_its_pair (Sample.plain w) w 0 "buy" "BTC/USD" 1
             (Some 100) None "ETH").
  - reflexivity.
  - vm_compute. intros H. repeat (apply elem_of_cons in H as [H|H]; [discriminate|]).
    by apply elem_of_nil in H.
Defined.

End PaperTradeFrame.

(** ** Orders that are turned away, and the live rate limit *)

Section OrderGate.

(** Inside the trade interval every order comes back as [None]. *)
Lemma execute_order_rate_limited
    (self : executor) (now stamp : float) (sig : option signal) (symbol : string)
    (amount : float) (ob : option book) :
  (now - last_trade_time self <? min_trade_interval self) = true ->
  execute_order self now stamp sig symbol amount ob = (Return None, self).
Proof.
  intros H. unfold execute_order.
  destruct (signal_truthy sig); simpl negb; cbv iota; [|reflexivity].
  destruct (sig ≫= sig_side) as [side|]; [|done].
  destruct (negb _); [done|]. by rewrite H.
Qed.

(** An order with an empty or missing signal, without a side, with a
    side other than ["buy"] and ["sell"], or inside the trade interval
    returns [None] and leaves the engine - wallet and last trade time -
    exactly as it was, in paper and in live mode. *)
Theorem execute_order_rejections_change_nothing
    (self : executor) (now stamp : float) (sig : option signal) (symbol : string)
    (amount : float) (ob : option book) :
  signal_truthy sig = false
  \/ sig ≫= sig_side = None
  \/ (exists side, sig ≫= sig_side = Some side /\ side <> "buy" /\ side <> "sell")
  \/ (now - last_trade_time self <? min_trade_interval self) = true ->
  execute_order self now stamp sig symbol amount ob = (Return None, self).
Proof.
  intros H. unfold execute_order.
  destruct (signal_truthy sig); simpl negb; cbv iota.
  2:{ reflexivity. }
  destruct H as [H | [H | [H | H]]]; [discriminate | | |].
  - by rewrite H.
  - destruct H as (side & -> & Hb & Hs).
    apply String.eqb_neq in Hb, Hs. by rewrite Hb, Hs.
  - destruct (sig ≫= sig_side) as [side|]; [|done].
    destruct (negb _); [done|]. by rewrite H.
Qed.

(** A hold signal, and a buy signal half a second after a trade. *)
Lemma execute_order_rejections_change_nothing_witness :
  let self := set_last_trade_time (Sample.plain (Sample.wallet_of 10000 0)) 1000 in
  let hold := {| sig_side := Some "hold"; sig_price := Some 100; sig_strategy := None |} in
  execute_order self 2000 2000 (Some hold) "BTC/USD" 1 None = (Return None, self)
  /\ execute_order self 1000.5 1000.5 (Some (Sample.buy_at 100)) "BTC/USD" 1 None
     = (Return None, self).
Proof.
  intros self hold. split.
  - apply execute_order_rejections_change_nothing.
    right. right. left. exists "hold". by repeat split.
  - apply execute_order_rejections_change_nothing.
    right. right. right. reflexivity.
Defined.

(** In live mode an accepted order records the time of the call, and
    any order that follows within the trade interval is rejected
    without changing the engine. *)
Theorem live_order_arms_rate_limit
    (self : executor) (now stamp later stamp' : float) (side side' : string)
    (price price' : option float) (symbol symbol' : string) (amount amount' : float)
    (ob ob' : option book) :
  paper_wallet self = None ->
  side = "buy" \/ side = "sell" ->
  (now - last_trade_time self <? min_trade_interval self) = false ->
  (later - now <? min_trade_interval self) = true ->
  let first :=
    execute_order self now stamp
      (Some {| sig_side := Some side; sig_price := price; sig_strategy := None |})
      symbol amount ob in
  fst first = Return (Some {| fill_id_of := live_mock; fill_status_of := closed;
                              fill_side := side; fill_amount := amount;
                              fill_price := None; fill_cost := None |})
  /\ snd first = set_last_trade_time self now
  /\ execute_order (snd first) later stamp'
       (Some {| sig_side := Some side'; sig_price := price'; sig_strategy := None |})
       symbol' amount' ob'
     = (Return None, snd first).
Proof.
  intros Hw Hside Hrate Hsoon first.
  assert (Hfirst : first =
            (Return (Some {| fill_id_of := live_mock; fill_status_of := closed;
                             fill_side := side; fill_amount := amount;
                             fill_price := None; fill_cost := None |}),
             set_last_trade_time self now)).
  { unfold first, execute_order. cbn.
    assert (Hvalid : negb (String.eqb side "buy" || String.eqb side "sell") = false)
      by (by destruct Hside as [-> | ->]).
    by rewrite Hvalid, Hrate, Hw. }
  rewrite Hfirst. simpl fst. simpl snd. repeat split.
  apply execute_order_rate_limited. exact Hsoon.
Qed.

(** Two live orders one second apart, the interval being 60 seconds. *)
Lemma live_order_arms_rate_limit_witness :
  let first := execute_order Sample.live 1000 1000 (Some (Sample.buy_at 100)) "BTC/USD" 1 None in
  snd first = set_last_trade_time Sample.live 1000
  /\ execute_order (snd first) 1001 1001
       (Some {| sig_side := Some "sell"; sig_price := None; sig_strategy := None |})
       "ETH/USD" 2 None
     = (Return None, snd first).
Proof.
  intros first.
  destruct (live_order_arms_rate_limit Sample.live 1000 1000 1001 1001 "buy" "sell"
              (Some 100) None "BTC/USD" "ETH/USD" 1 2 None None)
    as (_ & H2 & H3); [reflexivity | by left | reflexivity | reflexivity |].
  split; [exact H2 | exact H3].
Defined.

End OrderGate.

(** ** What the ladder does not look at *)

Section LadderBlindSpots.

Variables (clock : nat -> float) (symbol : string).

(** A fill carries the side of its paper trade. *)
Lemma paper_trade_fill_side (self : executor) (w : balances) (stamp : float)
    (side : string) (amount : float) (price : option float) (ob : option book) (f : fill) :
  fst (_execute_paper_trade self w stamp side symbol amount price ob) = Return (Some f) ->
  fill_side f = side.
Proof.
  unfold _execute_paper_trade.
  destruct (negb (Py.truthy_opt price) && negb (book_truthy ob)); [discriminate|].
  destruct (Py.split "/" symbol) as [|base [|quote [|x l]]]; try discriminate.
  destruct (discover_price self side amount price ob) as [[exec_price|]|e]; try discriminate.
  unfold settle.
  destruct (String.eqb side "buy") eqn:Hb.
  - apply String.eqb_eq in Hb. subst side.
    destruct (withdraw w quote _) as [[|] w1]; simpl; [|discriminate].
    by intros [= <-].
  - destruct (String.eqb side "sell") eqn:Hs; [|discriminate].
    apply String.eqb_eq in Hs. subst side.
    destruct (withdraw w base amount) as [[|] w1]; simpl; [|discriminate].
    by intros [= <-].
Qed.

Lemma ladder_loop_all_buys (total_amount current_price : float)
    (todo : list (float * float)) :
  forall (self : executor) (i : nat) (results fs : list fill),
    Forall (fun f => fill_side f = "buy") results ->
    fst (ladder_loop self clock symbol total_amount current_price i todo results)
      = Return fs ->
    Forall (fun f => fill_side f = "buy") fs.
Proof.
  induction todo as [|[size_mult price_mult] rest IH]; intros self i results fs Hres; simpl.
  - by intros [= <-].
  - destruct (paper_wallet self) as [w|].
    + pose proof (paper_trade_fill_side self w (clock i) "buy" (total_amount * size_mult)
                    (Some (current_price * price_mult)) None) as Hside.
      destruct (_execute_paper_trade self w (clock i) "buy" symbol _ _ None)
        as [[res|e] w1]; [|discriminate].
      apply IH. destruct res as [f|]; simpl; [|done].
      apply Forall_app. split; [done|]. constructor; [|constructor].
      by apply Hside.
    + apply IH. apply Forall_app. split; [done|]. by repeat constructor.
Qed.

Lemma ladder_loop_last_trade_time (total_amount current_price : float)
    (todo : list (float * float)) (t : float) :
  forall (self : executor) (i : nat) (results : list fill),
    ladder_loop (set_last_trade_time self t) clock symbol total_amount current_price
      i todo results
    = (fst (ladder_loop self clock symbol total_amount current_price i todo results),
       set_last_trade_time
         (snd (ladder_loop self clock symbol total_amount current_price i todo results)) t).
Proof.
  induction todo as [|[size_mult price_mult] rest IH]; intros self i results; simpl.
  - reflexivity.
  - destruct (paper_wallet self) as [w|].
    + change (_execute_paper_trade (set_last_trade_time self t) w (clock i) "buy" symbol
                (total_amount * size_mult) (Some (current_price * price_mult)) None)
        with (_execute_paper_trade self w (clock i) "buy" symbol
                (total_amount * size_mult) (Some (current_price * price_mult)) None).
      destruct (_execute_paper_trade self w (clock i) "buy" symbol _ _ None)
        as [[res|e] w1]; [|reflexivity].
      apply (IH (set_wallet self w1)).
    + apply IH.
Qed.

(** A ladder order reads neither the side of the signal nor the rate
    limit: the call is the same whatever side the signal names (or if
    it names none), its result is the same whatever the last trade time
    is, the last trade time is left as it was, and every fill that
    comes back is a buy. *)
Theorem ladder_ignores_side_and_rate_limit
    (self : executor) (side side' : option string) (price : option float)
    (tag : option string) (total_amount t : float) (ob : option book) :
  let sig := {| sig_side := side; sig_price := price; sig_strategy := tag |} in
  let sig' := {| sig_side := side'; sig_price := price; sig_strategy := tag |} in
  execute_ladder_order self clock (Some sig') symbol total_amount ob
    = execute_ladder_order self clock (Some sig) symbol total_amount ob
  /\ fst (execute_ladder_order (set_last_trade_time self t) clock (Some sig) symbol
            total_amount ob)
     = fst (execute_ladder_order self clock (Some sig) symbol total_amount ob)
  /\ last_trade_time (snd (execute_ladder_order (set_last_trade_time self t) clock
                             (Some sig) symbol total_amount ob)) = t
  /\ Forall (fun f => fill_side f = "buy")
       (match fst (execute_ladder_order self clock (Some sig) symbol total_amount ob) with
        | Return (Some fs) => fs
        | _ => []
        end).
Proof.
  intros sig sig'. unfold execute_ladder_order. cbn -[ladder_loop].
  destruct price as [current_price|]; cbn -[ladder_loop].
  2:{ repeat split; try constructor.
      - by destruct side, side', tag, (Py.truthy total_amount).
      - by destruct (_ || _).
      - by destruct (_ || _).
      - by destruct (_ || _). }
  rewrite !orb_true_r. simpl negb. simpl orb.
  destruct (Py.truthy total_amount); simpl negb; cbv iota; [|by repeat split].
  destruct (Py.truthy current_price); simpl negb; cbv iota; [|by repeat split].
  rewrite ladder_loop_last_trade_time.
  pose proof (ladder_loop_all_buys total_amount current_price rungs self 0 []) as Hbuys.
  destruct (ladder_loop self clock symbol total_amount current_price 0 rungs [])
    as [[fs|e] self1]; simpl in *.
  - specialize (Hbuys fs (Forall_nil_2 _) eq_refl).
    destruct fs as [|f fs]; simpl; repeat split; try constructor;
      by inversion Hbuys.
  - by repeat split.
Qed.

End LadderBlindSpots.

(** ** Sequences of ledger calls, asset by asset *)

Section LedgerFrame.

Lemma run_call_other (b : balances) (c : call) (asset : string) :
  Calls.call_currency c <> asset -> PaperWallet.run_call b c !! asset = b !! asset.
Proof.
  intros Hne. destruct c as [cur a|cur a]; simpl in *.
  - unfold deposit. destruct (a <? 0); [done|]. by apply lookup_insert_ne.
  - unfold withdraw. destruct (a <? 0); [done|].
    destruct (a <=? get_balance b cur); [|done]. by apply lookup_insert_ne.
Qed.

Lemma run_call_keeps_keys (b : balances) (c : call) (asset : string) :
  is_Some (b !! asset) -> is_Some (PaperWallet.run_call b c !! asset).
Proof.
  intros Hin. destruct c as [cur a|cur a]; simpl.
  - unfold deposit. destruct (a <? 0); [done|].
    apply lookup_insert_is_Some'. by right.
  - unfold withdraw. destruct (a <? 0); [done|].
    destruct (a <=? get_balance b cur); [|done].
    apply lookup_insert_is_Some'. by right.
Qed.

(** Through any sequence of deposits and withdrawals, an asset that no
    call names keeps its entry at every step, and no entry of the
    ledger is ever removed: an asset withdrawn down to nothing stays in
    the mapping. *)
Theorem ledger_calls_are_local (cs : list call) :
  forall (b : balances) (asset : string),
    (Forall (fun c => Calls.call_currency c <> asset) cs ->
     Forall (fun b' : balances => b' !! asset = b !! asset) (trace b cs))
    /\ (is_Some (b !! asset) ->
        Forall (fun b' : balances => is_Some (b' !! asset)) (trace b cs)).
Proof.
  induction cs as [|c cs IH]; intros b asset; simpl.
  - split; constructor.
  - split.
    + intros Hcs. inversion Hcs as [|? ? Hc Hrest]; subst.
      pose proof (run_call_other b c asset Hc) as Hstep.
      constructor; [exact Hstep|].
      destruct (IH (PaperWallet.run_call b c) asset) as [H1 _].
      rewrite <- Hstep. by apply H1.
    + intros Hin.
      pose proof (run_call_keeps_keys b c asset Hin) as Hstep.
      constructor; [exact Hstep|].
      destruct (IH (PaperWallet.run_call b c) asset) as [_ H2]. by apply H2.
Qed.

(** USD calls around a wallet of 100 USD and 1 BTC: the BTC entry
    stays, and the USD entry, emptied, is still there. *)
Lemma ledger_calls_are_local_witness :
  let b := Sample.wallet_of 100 1 in
  let cs := [Deposit "USD" 50; Withdraw "USD" 150] in
  Forall (fun b' : balances => b' !! "BTC" = Some 1%float) (trace b cs)
  /\ Forall (fun b' : balances => is_Some (b' !! "USD")) (trace b cs).
Proof.
  intros b cs.
  destruct (ledger_calls_are_local cs b "BTC") as [Hbtc _].
  destruct (ledger_calls_are_local cs b "USD") as [_ Husd].
  split.
  - apply Hbtc. repeat constructor; discriminate.
  - apply Husd. by eexists.
Defined.

End LedgerFrame.

(** ** The wallet file *)

Section WalletFileProps.

(** What [_init_defaults] leaves in memory: every initial holding, and
    the capital under ["USD"] unless a holding is stored under that
    name. *)
Lemma init_defaults_lookup (io : WalletFile.write) (self : WalletFile.obj)
    (d : WalletFile.disk) (k : string) :
  WalletFile.bal (fst (WalletFile._init_defaults io self d)) !! k =
    match WalletFile.initial_holdings self !! k with
    | Some v => Some v
    | None => if decide (k = "USD") then Some (WalletFile.initial_capital self) else None
    end.
Proof.
  unfold WalletFile._init_defaults. simpl.
  generalize (WalletFile.initial_holdings self). intros holdings.
  apply (map_fold_weak_ind
           (fun (acc : balances) (m : gmap string float) =>
              acc !! k = match m !! k with
                         | Some v => Some v
                         | None => if decide (k = "USD")
                                   then Some (WalletFile.initial_capital self) else None
                         end)).
  - rewrite lookup_empty. destruct (decide (k = "USD")) as [->|Hne].
    + by rewrite lookup_singleton_eq.
    + by rewrite lookup_singleton_ne.
  - intros i x m r Hi IH. destruct (decide (i = k)) as [->|Hne].
    + by rewrite !lookup_insert_eq.
    + by rewrite !lookup_insert_ne.
Qed.

(** When nothing can be loaded - no file, a file that does not parse,
    or a file that cannot be read - the constructor seeds the wallet:
    every initial holding, and the capital under ["USD"] unless the
    holdings name ["USD"] themselves; a successful save then replaces
    whatever the file held. *)
Theorem wallet_seeded_when_nothing_loads
    (readable : bool) (io : WalletFile.write) (capital : float)
    (holdings : gmap string float) (d : WalletFile.disk) :
  d = None \/ d = Some WalletFile.Unreadable \/ readable = false ->
  let r := WalletFile.__init__ readable io capital holdings d in
  (forall k, WalletFile.bal (fst r) !! k =
     match holdings !! k with
     | Some v => Some v
     | None => if decide (k = "USD") then Some capital else None
     end)
  /\ (io = WalletFile.written -> snd r = Some (WalletFile.Json (WalletFile.bal (fst r))))
  /\ (forall remains, io = WalletFile.write_failed remains -> snd r = remains).
Proof.
  intros Hd r.
  assert (Hr : r = WalletFile._init_defaults io
                     {| WalletFile.initial_capital := capital;
                        WalletFile.initial_holdings := holdings;
                        WalletFile.bal := ∅ |} d).
  { unfold r, WalletFile.__init__, WalletFile.load.
    destruct Hd as [-> | [-> | ->]]; try reflexivity.
    by destruct d as [[b|]|]. }
  rewrite Hr. split; [|split].
  - intros k.
    exact (init_defaults_lookup io
             {| WalletFile.initial_capital := capital;
                WalletFile.initial_holdings := holdings;
                WalletFile.bal := ∅ |} d k).
  - by intros ->.
  - by intros remains ->.
Qed.

(** A first run with 10000 of capital, and holdings that name USD. *)
Lemma wallet_seeded_when_nothing_loads_witness :
  let r := WalletFile.__init__ true WalletFile.written 10000
             (<["USD" := 250]> (<["BTC" := 2]> ∅)) None in
  WalletFile.bal (fst r) !! "USD" = Some 250%float
  /\ WalletFile.bal (fst r) !! "BTC" = Some 2%float
  /\ snd r = Some (WalletFile.Json (WalletFile.bal (fst r))).
Proof.
  intros r.
  destruct (wallet_seeded_when_nothing_loads true WalletFile.written 10000
              (<["USD" := 250]> (<["BTC" := 2]> ∅)) None) as (Hk & Hw & _); [by left|].
  split; [exact (Hk "USD")|]. split; [exact (Hk "BTC")|]. by apply Hw.
Defined.

(** The state in which the file holds exactly the balances in memory. *)
Lemma init_synced (readable : bool) (capital : float) (holdings : gmap string float)
    (d : WalletFile.disk) :
  let r := WalletFile.__init__ readable WalletFile.written capital holdings d in
  snd r = Some (WalletFile.Json (WalletFile.bal (fst r))).
Proof.
  unfold WalletFile.__init__, WalletFile.load.
  destruct d as [[b|]|]; try reflexivity. by destruct readable.
Qed.

Lemma run_call_synced (st : WalletFile.obj * WalletFile.disk) (c : call) :
  snd st = Some (WalletFile.Json (WalletFile.bal (fst st))) ->
  let st' := WalletFile.run_call st (c, WalletFile.written) in
  snd st' = Some (WalletFile.Json (WalletFile.bal (fst st'))).
Proof.
  intros Hs. destruct c as [cur a|cur a]; simpl.
  - unfold WalletFile.deposit. by destruct (a <? 0).
  - unfold WalletFile.withdraw. destruct (a <? 0); [done|].
    by destruct (a <=? _).
Qed.

Lemma run_synced (cs : list (call * WalletFile.write)) :
  forall st : WalletFile.obj * WalletFile.disk,
    Forall (fun c => snd c = WalletFile.written) cs ->
    snd st = Some (WalletFile.Json (WalletFile.bal (fst st))) ->
    snd (WalletFile.run st cs)
      = Some (WalletFile.Json (WalletFile.bal (fst (WalletFile.run st cs)))).
Proof.
  induction cs as [|[c io] cs IH]; intros st Hio Hs; simpl; [done|].
  inversion Hio as [|? ? Hc Hrest]; subst. simpl in Hc. subst io.
  apply IH; [done|]. by apply run_call_synced.
Qed.

(** Re-running the program does not reset the balances: construct a
    wallet, make any deposits and withdrawals, all saves succeeding,
    and construct a wallet again over the file, with whatever capital
    and holdings: it has the balances the first one ended with. *)
Theorem wallet_survives_restart
    (readable : bool) (capital capital' : float) (holdings holdings' : gmap string float)
    (d : WalletFile.disk) (cs : list (call * WalletFile.write)) (io' : WalletFile.write) :
  Forall (fun c => snd c = WalletFile.written) cs ->
  let st := WalletFile.run (WalletFile.__init__ readable WalletFile.written capital holdings d) cs in
  WalletFile.__init__ true io' capital' holdings' (snd st)
    = ({| WalletFile.initial_capital := capital';
          WalletFile.initial_holdings := holdings';
          WalletFile.bal := WalletFile.bal (fst st) |}, snd st).
Proof.
  intros Hio st.
  assert (Hs : snd st = Some (WalletFile.Json (WalletFile.bal (fst st)))).
  { apply run_synced; [done|]. apply init_synced. }
  unfold WalletFile.__init__, WalletFile.load. by rewrite Hs.
Qed.

(** A first run with 10000 USD, a deposit and a withdrawal, then a
    second run configured with 50 USD: the 9900 USD are still there. *)
Lemma wallet_survives_restart_witness :
  let cs := [(Deposit "USD" 100, WalletFile.written);
             (Withdraw "USD" 200, WalletFile.written)] in
  WalletFile.bal (fst (WalletFile.__init__ true WalletFile.written 50 ∅
    (snd (WalletFile.run (WalletFile.__init__ true WalletFile.written 10000 ∅ None) cs))))
    !! "USD" = Some 9900%float.
Proof.
  intros cs.
  rewrite (wallet_survives_restart true 10000 50 ∅ ∅ None cs WalletFile.written).
  - vm_compute. reflexivity.
  - by repeat constructor.
Defined.

Lemma file_deposit_memory (io : WalletFile.write) (self : WalletFile.obj)
    (d : WalletFile.disk) (cur : string) (a : float) :
  WalletFile.bal (fst (WalletFile.deposit io self d cur a))
    = deposit (WalletFile.bal self) cur a.
Proof. unfold WalletFile.deposit, deposit. by destruct (a <? 0). Qed.

Lemma file_withdraw_memory (io : WalletFile.write) (self : WalletFile.obj)
    (d : WalletFile.disk) (cur : string) (a : float) :
  let '(ok, self', _) := WalletFile.withdraw io self d cur a in
  (ok, WalletFile.bal self') = withdraw (WalletFile.bal self) cur a.
Proof.
  unfold WalletFile.withdraw, withdraw. destruct (a <? 0); [done|].
  by destruct (a <=? _).
Qed.

Lemma file_run_call_memory (st : WalletFile.obj * WalletFile.disk)
    (c : call) (io : WalletFile.write) :
  WalletFile.bal (fst (WalletFile.run_call st (c, io)))
    = PaperWallet.run_call (WalletFile.bal (fst st)) c.
Proof.
  destruct c as [cur a|cur a]; simpl.
  - apply file_deposit_memory.
  - pose proof (file_withdraw_memory io (fst st) (snd st) cur a) as H.
    destruct (WalletFile.withdraw io (fst st) (snd st) cur a) as [[ok self'] d'].
    simpl. by rewrite <- H.
Qed.

(** The balances in memory do not depend on the file: whatever the
    writes do - succeed, fail, leave the file in any state - a sequence
    of deposits and withdrawals ends with the balances that the calls
    alone determine, and a withdrawal answers the same flag. *)
Theorem wallet_memory_ignores_the_file (cs : list (call * WalletFile.write)) :
  forall st : WalletFile.obj * WalletFile.disk,
    WalletFile.bal (fst (WalletFile.run st cs))
      = fold_left PaperWallet.run_call (map fst cs) (WalletFile.bal (fst st))
    /\ (forall io cur a,
          fst (fst (WalletFile.withdraw io (fst st) (snd st) cur a))
            = fst (withdraw (WalletFile.bal (fst st)) cur a)).
Proof.
  unfold WalletFile.run.
  induction cs as [|[c io] cs IH]; intros st; cbn [fold_left map fst].
  - split; [done|]. intros io cur a.
    pose proof (file_withdraw_memory io (fst st) (snd st) cur a) as H.
    destruct (WalletFile.withdraw io (fst st) (snd st) cur a) as [[ok self'] d'].
    simpl. by rewrite <- H.
  - destruct (IH (WalletFile.run_call st (c, io))) as [Hmem _].
    split.
    + rewrite Hmem. by rewrite file_run_call_memory.
    + intros io0 cur a.
      pose proof (file_withdraw_memory io0 (fst st) (snd st) cur a) as H.
      destruct (WalletFile.withdraw io0 (fst st) (snd st) cur a) as [[ok self'] d'].
      simpl. by rewrite <- H.
Qed.

(** Only a call that passes its checks writes the file.  A rejected
    call - a negative amount, an uncovered withdrawal - leaves wallet
    and file as they were.  An accepted call saves the whole mapping:
    if the write succeeds the file holds exactly the balances in
    memory, whatever it held before, so one successful save makes up
    for every save that failed; if the write fails the mutation stays
    in memory and the file is what the failure left. *)
Theorem wallet_file_written_by_accepted_calls_only
    (st : WalletFile.obj * WalletFile.disk) (c : call) (io : WalletFile.write) :
  let st' := WalletFile.run_call st (c, io) in
  (Calls.accepted (WalletFile.bal (fst st)) c = false -> st' = (fst st, snd st))
  /\ (Calls.accepted (WalletFile.bal (fst st)) c = true ->
      snd st' = WalletFile.save io (WalletFile.bal (fst st')) (snd st)
      /\ (io = WalletFile.written ->
          snd st' = Some (WalletFile.Json (WalletFile.bal (fst st'))))
      /\ (forall remains, io = WalletFile.write_failed remains ->
          snd st' = remains
          /\ WalletFile.bal (fst st') = PaperWallet.run_call (WalletFile.bal (fst st)) c)).
Proof.
  intros st'. split.
  - unfold st'. destruct c as [cur a|cur a]; simpl.
    + unfold WalletFile.deposit. destruct (a <? 0); [done | discriminate].
    + unfold WalletFile.withdraw. destruct (a <? 0); [done|]. simpl.
      destruct (a <=? _); [discriminate | done].
  - intros Hacc.
    assert (Hsave : snd st' = WalletFile.save io (WalletFile.bal (fst st')) (snd st)).
    { unfold st'. destruct c as [cur a|cur a]; simpl in *.
      - unfold WalletFile.deposit. destruct (a <? 0); [discriminate | done].
      - unfold WalletFile.withdraw. destruct (a <? 0); [discriminate|]. simpl in Hacc.
        by rewrite Hacc. }
    split; [exact Hsave|]. split.
    + intros ->. exact Hsave.
    + intros remains ->. split; [exact Hsave|]. apply file_run_call_memory.
Qed.

(** A deposit whose save fails, then a withdrawal whose save succeeds:
    the file holds both. *)
Lemma wallet_file_written_by_accepted_calls_only_witness :
  let st0 := WalletFile.__init__ true WalletFile.written 1000 ∅ None in
  let st1 := WalletFile.run_call st0 (Deposit "USD" 500, WalletFile.write_failed (snd st0)) in
  let st2 := WalletFile.run_call st1 (Withdraw "USD" 200, WalletFile.written) in
  snd st1 = snd st0
  /\ snd st2 = Some (WalletFile.Json (WalletFile.bal (fst st2)))
  /\ WalletFile.bal (fst st2) !! "USD" = Some 1300%float.
Proof.
  intros st0 st1 st2.
  destruct (wallet_file_written_by_accepted_calls_only st0 (Deposit "USD" 500)
              (WalletFile.write_failed (snd st0))) as [_ H1].
  destruct (wallet_file_written_by_accepted_calls_only st1 (Withdraw "USD" 200)
              WalletFile.written) as [_ H2].
  destruct H1 as (_ & _ & H1); [reflexivity|].
  destruct H2 as (_ & H2 & _); [reflexivity|].
  split; [exact (proj1 (H1 _ eq_refl))|]. split; [exact (H2 eq_refl)|].
  vm_compute. reflexivity.
Defined.

End WalletFileProps.

(** ** The request metrics of the exchange client *)

Section ClientMetrics.

Lemma tail_drop {A} (l : list A) : tail l = drop 1 l.
Proof. by destruct l. Qed.

(** Appending to a window of the last 100 and dropping the oldest
    entry when there are more gives the window of the longer list. *)
Lemma window_step (l : list float) (x : float) :
  let h := drop (length l - 100) l ++ [x] in
  (if Nat.ltb 100 (length h) then tail h else h)
    = drop (length (l ++ [x]) - 100) (l ++ [x]).
Proof.
  intros h. unfold h. rewrite !length_app, length_drop. simpl length.
  destruct (Nat.ltb 100 (length l - (length l - 100) + 1)) eqn:E.
  - apply Nat.ltb_lt in E.
    rewrite tail_drop.
    rewrite (drop_app_le (drop (length l - 100) l)) by (rewrite length_drop; lia).
    rewrite drop_drop.
    rewrite (drop_app_le l) by lia.
    do 2 f_equal. lia.
  - apply Nat.ltb_ge in E.
    replace (length l - 100)%nat with 0%nat by lia.
    replace (length l + 1 - 100)%nat with 0%nat by lia.
    by rewrite !drop_0.
Qed.

Lemma fetch_all_snoc (m : ExchangeClient.metrics) (rs : list ExchangeClient.request)
    (r : ExchangeClient.request) :
  ExchangeClient.fetch_all m (rs ++ [r])
    = snd (ExchangeClient.fetch_ticker (ExchangeClient.fetch_all m rs)
             (fst (fst r)) (snd (fst r)) (snd r)).
Proof. unfold ExchangeClient.fetch_all. by rewrite fold_left_app. Qed.

Lemma latencies_snoc (rs : list ExchangeClient.request) (r : ExchangeClient.request) :
  ExchangeClient.latencies (rs ++ [r])
    = ExchangeClient.latencies rs ++
        match snd r with
        | Some _ => [(snd (fst r) - fst (fst r)) * 1000]
        | None => []
        end.
Proof.
  unfold ExchangeClient.latencies. rewrite omap_app. simpl.
  by destruct (snd r).
Qed.

(** After any sequence of ticker requests on a new client: every
    request is counted; the requests that raised are counted as errors,
    so errors and answered requests add up to the requests; and the
    latency history is the latencies of the answered requests, in
    order, cut down to the last 100. *)
Theorem ticker_metrics_after_requests (rs : list ExchangeClient.request) :
  let m := ExchangeClient.fetch_all ExchangeClient.fresh rs in
  let answered := ExchangeClient.latencies rs in
  ExchangeClient.requests m = length rs
  /\ (ExchangeClient.errors m + length answered = ExchangeClient.requests m)%nat
  /\ ExchangeClient.latency_history m = drop (length answered - 100) answered
  /\ (length (ExchangeClient.latency_history m) <= 100)%nat.
Proof.
  induction rs as [|r rs IH] using rev_ind.
  - simpl. repeat split; lia.
  - cbv zeta in *. rewrite fetch_all_snoc, latencies_snoc, !length_app.
    destruct IH as (Hreq & Herr & Hhist & Hlen).
    destruct r as [[start finish] [t|]]; simpl.
    + rewrite Hhist.
      rewrite (window_step (ExchangeClient.latencies rs) ((finish - start) * 1000)).
      rewrite length_drop, length_app. simpl. repeat split; lia.
    + rewrite app_nil_r, Nat.add_0_r. repeat split; try lia. exact Hhist.
Qed.

End ClientMetrics.

(** ** The price-impact estimate *)

Section PriceImpact.

Lemma eqb_zero_spec (v : float) :
  (v =? 0) = true -> exists s, Prim2SF v = S754_zero s.
Proof.
  rewrite FloatAxioms.eqb_spec, Prim2SF_zero.
  destruct (Prim2SF v) as [s|[|]| |[|] m e]; try discriminate. by exists s.
Qed.

(** An amount that is not [<= 0] is not zero. *)
Lemma not_leb_zero_not_eqb (a : float) : (a <=? 0) = false -> (a =? 0) = false.
Proof.
  rewrite leb_spec, FloatAxioms.eqb_spec. unfold SFleb, SFeqb.
  by destruct (SFcompare (Prim2SF a) (Prim2SF 0)) as [[| |]|].
Qed.

Lemma zero_below_positive (v r : float) :
  (v =? 0) = true -> (0 <? r) = true -> (v <? r) = true.
Proof.
  intros Hv. destruct (eqb_zero_spec v Hv) as [s Hs].
  rewrite !ltb_spec, Hs, Prim2SF_zero.
  by destruct (Prim2SF r) as [s'|[|]| |[|] m e].
Qed.

Lemma sub_zero_positive (v r : float) :
  (v =? 0) = true -> (0 <? r) = true -> r - v = r.
Proof.
  intros Hv. destruct (eqb_zero_spec v Hv) as [s Hs].
  rewrite ltb_spec, Prim2SF_zero. intros Hr.
  apply Prim2SF_inj. rewrite sub_spec, Hs.
  by destruct (Prim2SF r) as [s'|[|]| |[|] m e].
Qed.

(** A finite positive amount less itself is zero. *)
Lemma sub_self_zero (a : float) :
  finite a = true -> (0 <? a) = true -> (a - a =? 0) = true.
Proof.
  unfold finite. rewrite ltb_spec, FloatAxioms.eqb_spec, sub_spec, Prim2SF_zero.
  destruct (Prim2SF a) as [s|s| |[|] m e]; try discriminate.
  intros _ _. unfold SF64sub, SFsub, cond_Zopp.
  change (IntDef.Z.sub ?x ?y) with (Z.sub x y).
  by rewrite Z.sub_diag.
Qed.

(** Levels without volume fill nothing: the remainder stays what it was. *)
Lemma walk_zero_volumes (levels : list level) :
  forall total_cost r : float,
    Forall (fun l : level => (snd l =? 0) = true) levels ->
    (0 <? r) = true ->
    snd (walk levels total_cost r) = r.
Proof.
  induction levels as [|[p v] rest IH]; intros total_cost r Hz Hr; simpl; [done|].
  inversion Hz as [|? ? Hv Hrest]; subst. simpl in Hv.
  unfold Py.min. rewrite (zero_below_positive v r Hv Hr).
  rewrite (sub_zero_positive v r Hv Hr), (gt_zero_not_leb r Hr).
  by apply IH.
Qed.

(** For a positive amount, a failed order-book request and a book
    whose relevant side is empty both read as an impact of 1.0; an
    amount [<= 0] reads as 0.0 without the book being looked at. *)
Theorem price_impact_without_liquidity
    (response : option book) (amount : float) (side : string) :
  ((amount <=? 0) = true ->
   ExchangeClient.get_price_impact response amount side = Return 0)
  /\ ((amount <=? 0) = false ->
      response = None
      \/ (exists ob, response = Some ob
                     /\ ob !! (if String.eqb side "buy" then "asks" else "bids") = Some []) ->
      ExchangeClient.get_price_impact response amount side = Return 1).
Proof.
  unfold ExchangeClient.get_price_impact. split.
  - by intros ->.
  - intros -> [-> | (ob & -> & Hl)].
    + by destruct (String.eqb side "buy").
    + unfold ExchangeClient.fetch_order_book, level in *. by rewrite Hl.
Qed.

(** A sell of 2 units while the exchange does not answer. *)
Lemma price_impact_without_liquidity_witness :
  ExchangeClient.get_price_impact None 2 "sell" = Return 1.
Proof.
  apply (price_impact_without_liquidity None 2 "sell"); [reflexivity | by left].
Defined.

(** The estimate lets [ZeroDivisionError] escape when the best price of
    the side is zero, whatever the rest of the book holds. *)
Theorem price_impact_zero_best_price_raises
    (ob : book) (amount : float) (side : string) (best volume : float)
    (rest : list level) :
  (amount <=? 0) = false ->
  ob !! (if String.eqb side "buy" then "asks" else "bids") = Some ((best, volume) :: rest) ->
  (best =? 0) = true ->
  ExchangeClient.get_price_impact (Some ob) amount side = Raise ZeroDivisionError.
Proof.
  intros Ha Hl Hb. unfold ExchangeClient.get_price_impact.
  rewrite Ha. unfold ExchangeClient.fetch_order_book, level in *. rewrite Hl.
  destruct (walk ((best, volume) :: rest) 0 amount) as [total_cost remaining_amount].
  assert (Hdiv : forall x y, Py.div x y = Raise ZeroDivisionError
                             \/ exists q, Py.div x y = Return q).
  { intros x y. unfold Py.div. destruct (y =? 0); [by left | right; by eexists]. }
  assert (Hlast : forall x, Py.div x best = Raise ZeroDivisionError).
  { intros x. unfold Py.div. by rewrite Hb. }
  destruct (0 <? remaining_amount).
  - destruct (Hdiv total_cost (amount - remaining_amount)) as [-> | [q ->]]; [done|].
    destruct (Hdiv remaining_amount amount) as [-> | [q' ->]]; [done|]. apply Hlast.
  - destruct (Hdiv total_cost amount) as [-> | [q ->]]; [done|]. apply Hlast.
Qed.

(** Asks that start at the price 0. *)
Lemma price_impact_zero_best_price_raises_witness :
  ExchangeClient.get_price_impact (Some (Sample.book_of [(0, 1); (100, 1)] [])) 1 "buy"
    = Raise ZeroDivisionError.
Proof.
  apply (price_impact_zero_best_price_raises _ 1 "buy" 0 1 [(100, 1)]); reflexivity.
Defined.

(** The estimate lets [ZeroDivisionError] escape when no level of the
    side carries any volume: nothing is filled, the remainder is the
    whole amount, and the average is taken over [amount - amount]. *)
Theorem price_impact_zero_volume_raises
    (ob : book) (amount : float) (side : string) (levels : list level) :
  (0 <? amount) = true ->
  finite amount = true ->
  ob !! (if String.eqb side "buy" then "asks" else "bids") = Some levels ->
  levels <> [] ->
  Forall (fun l : level => (snd l =? 0) = true) levels ->
  ExchangeClient.get_price_impact (Some ob) amount side = Raise ZeroDivisionError.
Proof.
  intros Hpos Hfin Hl Hne Hz. unfold ExchangeClient.get_price_impact.
  rewrite (gt_zero_not_leb amount Hpos). unfold ExchangeClient.fetch_order_book, level in *.
  rewrite Hl. destruct levels as [|[best v0] rest]; [done|].
  pose proof (walk_zero_volumes ((best, v0) :: rest) 0 amount Hz Hpos) as Hrem.
  destruct (walk ((best, v0) :: rest) 0 amount) as [total_cost remaining_amount].
  simpl in Hrem. subst remaining_amount.
  rewrite Hpos. unfold Py.div at 1. by rewrite (sub_self_zero amount Hfin Hpos).
Qed.

(** Two ask levels that are listed without volume. *)
Lemma price_impact_zero_volume_raises_witness :
  ExchangeClient.get_price_impact (Some (Sample.book_of [(100, 0); (101, 0)] [])) 3 "buy"
    = Raise ZeroDivisionError.
Proof.
  apply (price_impact_zero_volume_raises _ 3 "buy" [(100, 0); (101, 0)]);
    try reflexivity; [discriminate | by repeat constructor].
Defined.

(** When the walk fills the amount, the estimate is the distance
    between the best price of the side and the price at which the paper
    trade executes against the same book, relative to the best price. *)
Theorem price_impact_measures_execution_price
    (self : executor) (ob : book) (amount ref : float) (side : string)
    (best volume : float) (rest : list level) :
  let levels := (best, volume) :: rest in
  (amount <=? 0) = false ->
  ob !! (if String.eqb side "buy" then "asks" else "bids") = Some levels ->
  (Spec.unfilled levels amount <=? 0) = true ->
  exists exec_price,
    discover_price self side amount (Some ref) (Some ob) = Return (Some exec_price)
    /\ exec_price = Spec.vwap (Spec.consumed levels amount) amount
    /\ ExchangeClient.get_price_impact (Some ob) amount side
       = Py.div (abs (exec_price - best)) best.
Proof.
  intros levels Ha Hl Hr.
  pose proof (not_leb_zero_not_eqb amount Ha) as Hnz.
  exists (Spec.vwap (Spec.consumed levels amount) amount). split; [|split; [done|]].
  - rewrite (discover_price_book self side amount ref ob levels Hl) by done.
    by rewrite (book_price_filled side levels amount Hnz Hr).
  - unfold ExchangeClient.get_price_impact.
    rewrite Ha. unfold ExchangeClient.fetch_order_book, level in *. rewrite Hl.
    fold levels. rewrite walk_consumed, (leb_zero_not_gt _ Hr).
    by rewrite (div_nonzero _ amount Hnz).
Qed.

(** The asks [[100,1],[101,2]] and the amount 2: the execution price
    is 100.5 and the estimate 0.005. *)
Lemma price_impact_measures_execution_price_witness :
  exists exec_price,
    discover_price (Sample.plain ∅) "buy" 2 (Some 100)
      (Some (Sample.book_of [(100, 1); (101, 2)] [])) = Return (Some exec_price)
    /\ exec_price = 100.5
    /\ ExchangeClient.get_price_impact (Some (Sample.book_of [(100, 1); (101, 2)] [])) 2 "buy"
       = Return 0.005.
Proof.
  destruct (price_impact_measures_execution_price (Sample.plain ∅)
              (Sample.book_of [(100, 1); (101, 2)] []) 2 100 "buy" 100 1 [(101, 2)])
    as (exec_price & Hd & He & Hi); [reflexivity | reflexivity | reflexivity |].
  exists exec_price. split; [exact Hd|]. split.
  - rewrite He. vm_compute. reflexivity.
  - rewrite Hi, He. vm_compute. reflexivity.
Defined.

(** The quotient of an absolute value by a positive number is a zero, a
    positive number, an infinity or NaN: it is never below zero. *)
Lemma abs_div_not_negative (x y : float) :
  (0 <? y) = true -> (abs x / y <? 0) = false.
Proof.
  rewrite !ltb_spec, div_spec, abs_spec, Prim2SF_zero. unfold SF64div.
  destruct (Prim2SF y) as [sy|[|]| |[|] my ey]; try discriminate; intros _;
    destruct (Prim2SF x) as [sx|sx| |sx mx ex]; try reflexivity.
  simpl SFabs. unfold SFdiv.
  destruct (SFdiv_core_binary prec emax (Zpos mx) ex (Zpos my) ey) as [[mz ez] lz] eqn:E.
  assert (Hmz : (0 <= mz)%Z).
  { unfold SFdiv_core_binary in E.
    set (m' := match _ with Zpos _ => _ | Z0 => _ | Zneg _ => _ end) in E.
    assert (Hm' : (0 <= m')%Z).
    { unfold m'. destruct (IntDef.Z.sub (IntDef.Z.sub ex ey) _); try done.
      apply Z.shiftl_nonneg. done. }
    change IntDef.Z.div_eucl with Z.div_eucl in E.
    pose proof (Z.div_pos m' (Zpos my) Hm' eq_refl) as Hq.
    unfold Z.div in Hq. destruct (Z.div_eucl m' (Zpos my)) as [q r].
    by injection E as <- _ _. }
  pose proof (binary_round_aux_signed false mz ez lz Hmz) as Hs.
  simpl xorb.
  by destruct (binary_round_aux prec emax false mz ez lz) as [s|[|]| |[|] m e].
Qed.

(** Against a side whose best price is positive, an estimate that is
    returned is never negative. *)
Theorem price_impact_is_not_negative
    (ob : book) (amount : float) (side : string) (best volume : float)
    (rest : list level) (impact : float) :
  ob !! (if String.eqb side "buy" then "asks" else "bids") = Some ((best, volume) :: rest) ->
  (0 <? best) = true ->
  ExchangeClient.get_price_impact (Some ob) amount side = Return impact ->
  (impact <? 0) = false.
Proof.
  intros Hl Hb. unfold ExchangeClient.get_price_impact.
  destruct (amount <=? 0); [by intros [= <-]|].
  unfold ExchangeClient.fetch_order_book, level in *. rewrite Hl.
  destruct (walk ((best, volume) :: rest) 0 amount) as [total_cost remaining_amount].
  assert (Hlast : forall avg, Py.div (abs (avg - best)) best = Return impact ->
                              (impact <? 0) = false).
  { intros avg. unfold Py.div. destruct (best =? 0); [discriminate|].
    intros [= <-]. by apply abs_div_not_negative. }
  destruct (0 <? remaining_amount).
  - destruct (Py.div total_cost (amount - remaining_amount)) as [q|e]; [|discriminate].
    destruct (Py.div remaining_amount amount) as [q'|e]; [|discriminate]. apply Hlast.
  - destruct (Py.div total_cost amount) as [q|e]; [|discriminate]. apply Hlast.
Qed.

(** Bids from 101 down, 2 units sold: the estimate is not negative. *)
Lemma price_impact_is_not_negative_witness :
  exists impact,
    ExchangeClient.get_price_impact (Some (Sample.book_of [] [(101, 1); (100, 2)])) 2 "sell"
      = Return impact
    /\ (impact <? 0) = false.
Proof.
  eexists. split; [vm_compute; reflexivity|].
  apply (price_impact_is_not_negative (Sample.book_of [] [(101, 1); (100, 2)]) 2 "sell"
           101 1 [(100, 2)]); [reflexivity | reflexivity | vm_compute; reflexivity].
Defined.

End PriceImpact.

(** ** The whale watch lists *)

Section WhaleLists.

(** Adding a whale wallet appends the address to the list of its
    network unless it is already there: afterwards the address is
    monitored, a list without duplicates stays without duplicates,
    adding the same address again changes nothing, and the lists of the
    other networks are as before. *)
Theorem add_whale_wallet_appends_once
    (whale_wallets : BlockchainMonitor.wallets) (network address : string) :
  let old := BlockchainMonitor.get_monitored_wallets whale_wallets network in
  let added := BlockchainMonitor.add_whale_wallet whale_wallets network address in
  BlockchainMonitor.get_monitored_wallets added network
    = (if bool_decide (address ∈ old) then old else old ++ [address])
  /\ address ∈ BlockchainMonitor.get_monitored_wallets added network
  /\ (NoDup old -> NoDup (BlockchainMonitor.get_monitored_wallets added network))
  /\ BlockchainMonitor.add_whale_wallet added network address = added
  /\ (forall other, other <> network ->
        BlockchainMonitor.get_monitored_wallets added other
          = BlockchainMonitor.get_monitored_wallets whale_wallets other).
Proof.
  intros old added.
  assert (Hget : BlockchainMonitor.get_monitored_wallets added network
                 = (if bool_decide (address ∈ old) then old else old ++ [address])).
  { unfold added, old, BlockchainMonitor.add_whale_wallet,
      BlockchainMonitor.get_monitored_wallets.
    destruct (whale_wallets !! network) as [l|] eqn:E; simpl.
    - rewrite !E. simpl. destruct (bool_decide (address ∈ l)); simpl.
      + by rewrite E.
      + by rewrite lookup_insert_eq.
    - rewrite !lookup_insert_eq, ?E. simpl.
      rewrite ?bool_decide_eq_false_2 by apply not_elem_of_nil.
      by rewrite ?lookup_insert_eq. }
  assert (Hin : address ∈ BlockchainMonitor.get_monitored_wallets added network).
  { rewrite Hget. destruct (bool_decide (address ∈ old)) eqn:E.
    - by apply bool_decide_eq_true_1 in E.
    - apply elem_of_app. right. by apply list_elem_of_singleton. }
  split; [exact Hget|]. split; [exact Hin|]. split; [|split].
  - intros Hnd. rewrite Hget. destruct (bool_decide (address ∈ old)) eqn:E; [done|].
    apply bool_decide_eq_false_1 in E.
    apply NoDup_app. split; [done|]. split.
    + intros x Hx Hx'. apply list_elem_of_singleton in Hx'. by subst.
    + apply NoDup_singleton.
  - unfold BlockchainMonitor.get_monitored_wallets in Hin.
    unfold BlockchainMonitor.add_whale_wallet at 1.
    destruct (added !! network) as [l|] eqn:E; simpl in *.
    + by rewrite E, bool_decide_eq_true_2.
    + by apply elem_of_nil in Hin.
  - intros other Hne.
    unfold added, BlockchainMonitor.add_whale_wallet,
      BlockchainMonitor.get_monitored_wallets.
    destruct (whale_wallets !! network) as [l|] eqn:E; simpl.
    + rewrite !E. simpl. destruct (bool_decide (address ∈ l)); [done|].
      by rewrite lookup_insert_ne.
    + rewrite !lookup_insert_eq. simpl.
      rewrite ?bool_decide_eq_false_2 by apply not_elem_of_nil.
      by rewrite !lookup_insert_ne.
Qed.

Variable upper : string -> string.
Variable token_map : gmap string string.

(** The loop over the symbols, from a watch list and no active token:
    what is watched and which tokens are active afterwards. *)
Lemma watch_fold_spec (symbols : list string) (wl0 : gset string) :
  let st := fold_left (BlockchainMonitor.watch_symbol upper token_map) symbols (wl0, ∅) in
  (forall k, k ∈ fst st
             <-> k ∈ wl0 \/ exists s, s ∈ symbols /\ k = upper (BlockchainMonitor.base_of s))
  /\ (forall k addr,
        snd st !! k = Some addr
        <-> (exists s, s ∈ symbols /\ k = upper (BlockchainMonitor.base_of s))
            /\ token_map !! BlockchainMonitor.target_token k = Some addr).
Proof.
  induction symbols as [|s symbols IH] using rev_ind; cbv zeta.
  - simpl. split.
    + intros k. split; [by left|]. intros [H | (s & Hs & _)]; [done|].
      by apply elem_of_nil in Hs.
    + intros k addr. rewrite lookup_empty. split; [done|].
      intros [(s & Hs & _) _]. by apply elem_of_nil in Hs.
  - rewrite fold_left_app. simpl fold_left.
    destruct (fold_left (BlockchainMonitor.watch_symbol upper token_map) symbols (wl0, ∅))
      as [wl active].
    destruct IH as [IHw IHa]. simpl in IHw, IHa.
    unfold BlockchainMonitor.watch_symbol.
    set (b := upper (BlockchainMonitor.base_of s)).
    assert (Hw : forall k : string,
               k ∈ wl ∪ {[b]}
               <-> k ∈ wl0 \/ exists s', s' ∈ symbols ++ [s]
                                         /\ k = upper (BlockchainMonitor.base_of s')).
    { intros k. rewrite elem_of_union, IHw, elem_of_singleton. split.
      - intros [[H | (s' & Hs' & ->)] | ->].
        + by left.
        + right. exists s'. split; [|done]. apply elem_of_app. by left.
        + right. exists s. split; [|done]. apply elem_of_app. right.
          by apply list_elem_of_singleton.
      - intros [H | (s' & Hs' & ->)]; [left; by left|].
        apply elem_of_app in Hs' as [Hs' | Hs'].
        + left. right. by exists s'.
        + apply list_elem_of_singleton in Hs'. subst s'. by right. }
    destruct (token_map !! BlockchainMonitor.target_token b) as [a|] eqn:E; simpl.
    + split; [exact Hw|]. intros k addr.
      destruct (decide (b = k)) as [<-|Hne].
      * rewrite lookup_insert_eq. split.
        -- intros [= <-]. split; [|done]. exists s. split; [|done].
           apply elem_of_app. right. by apply list_elem_of_singleton.
        -- intros [_ Ht]. congruence.
      * rewrite lookup_insert_ne by done. rewrite IHa. split.
        -- intros [(s' & Hs' & ->) Ht]. split; [|done]. exists s'. split; [|done].
           apply elem_of_app. by left.
        -- intros [(s' & Hs' & ->) Ht]. split; [|done].
           apply elem_of_app in Hs' as [Hs' | Hs']; [by exists s'|].
           apply list_elem_of_singleton in Hs'. by subst s'.
    + split; [exact Hw|]. intros k addr. rewrite IHa. split.
      * intros [(s' & Hs' & ->) Ht]. split; [|done]. exists s'. split; [|done].
        apply elem_of_app. by left.
      * intros [(s' & Hs' & ->) Ht]. split; [|done].
        apply elem_of_app in Hs' as [Hs' | Hs']; [by exists s'|].
        apply list_elem_of_singleton in Hs'. subst s'. unfold b in E. congruence.
Qed.

(** After [update_watchlist], whatever was watched before: the watch
    list is ETH, the five default assets and the upper-cased base of
    every symbol, nothing else; and a token is active exactly for the
    bases of the symbols whose token - WBTC for BTC - is in the token
    map, under the address the map gives.  Every active token is on
    the watch list. *)
Theorem update_watchlist_spec (symbols : list string) :
  let st := BlockchainMonitor.update_watchlist upper token_map symbols in
  (forall k, k ∈ fst st
             <-> k = "ETH" \/ k ∈ BlockchainMonitor.defaults
                 \/ exists s, s ∈ symbols /\ k = upper (BlockchainMonitor.base_of s))
  /\ (forall k addr,
        snd st !! k = Some addr
        <-> (exists s, s ∈ symbols /\ k = upper (BlockchainMonitor.base_of s))
            /\ token_map !! BlockchainMonitor.target_token k = Some addr)
  /\ (forall k, is_Some (snd st !! k) -> k ∈ fst st).
Proof.
  cbv zeta. unfold BlockchainMonitor.update_watchlist.
  destruct (watch_fold_spec symbols
              (fold_left (fun (wl : gset string) d => wl ∪ {[d]})
                 BlockchainMonitor.defaults (∅ ∪ {["ETH"]}))) as [Hw Ha].
  assert (Hwl : forall k, k ∈ fst (fold_left (BlockchainMonitor.watch_symbol upper token_map)
                     symbols (fold_left (fun (wl : gset string) d => wl ∪ {[d]})
                                BlockchainMonitor.defaults (∅ ∪ {["ETH"]}), ∅))
             <-> k = "ETH" \/ k ∈ BlockchainMonitor.defaults
                 \/ exists s, s ∈ symbols /\ k = upper (BlockchainMonitor.base_of s)).
  { intros k. rewrite Hw. simpl. unfold BlockchainMonitor.defaults.
    rewrite !elem_of_union, !elem_of_singleton, !elem_of_cons, elem_of_nil.
    rewrite elem_of_empty. tauto. }
  split; [exact Hwl|]. split; [exact Ha|].
  intros k [addr Hk]. apply Hwl. right. right. by apply Ha in Hk as [Hs _].
Qed.

End WhaleLists.

(** ** Orders the wallet cannot pay, and legs the wallet refuses *)

Section Refusals.

Variables (self : executor) (w : balances) (stamp : float).

(** An order that the wallet does not cover is refused: a buy whose
    total cost is above the quote balance, and a sell of more than the
    base balance, return [None] and leave the wallet as it was. *)
Theorem uncovered_order_is_refused
    (symbol base quote : string) (amount : float) (price : option float)
    (ob : option book) (exec_price : float) :
  Py.truthy_opt price || book_truthy ob = true ->
  Py.split "/" symbol = [base; quote] ->
  (discover_price self "buy" amount price ob = Return (Some exec_price) ->
   (get_balance w quote <? (amount * exec_price) * (1 + fee_pct self / 100)) = true ->
   _execute_paper_trade self w stamp "buy" symbol amount price ob = (Return None, w))
  /\ (discover_price self "sell" amount price ob = Return (Some exec_price) ->
      (get_balance w base <? amount) = true ->
      _execute_paper_trade self w stamp "sell" symbol amount price ob = (Return None, w)).
Proof.
  intros Hg Hs. split; intros Hp Hlow.
  - rewrite (paper_trade_is_settlement self w stamp _ _ _ _ _ _ _ _ Hg Hs Hp).
    unfold settle. simpl String.eqb. cbv iota.
    unfold total_cost_of, fee_mult.
    by rewrite (withdraw_insufficient _ _ _ (exceeds_not_covered _ _ Hlow)).
  - rewrite (paper_trade_is_settlement self w stamp _ _ _ _ _ _ _ _ Hg Hs Hp).
    unfold settle. simpl String.eqb. cbv iota.
    by rewrite (withdraw_insufficient _ _ _ (exceeds_not_covered _ _ Hlow)).
Qed.

(** The fill is decided by the withdrawal alone.  When the deposit leg
    is refused - the proceeds of a sell are negative, as with a fee
    above 100 percent - the sell is still reported as filled: the
    amount has left the base asset and nothing has reached the quote
    asset. *)
Theorem sell_with_negative_proceeds_pays_nothing
    (base quote : string) (amount exec_price : float) :
  base <> quote ->
  let proceeds := (amount * exec_price) * (1 - fee_pct self / 100) in
  (amount <? 0) = false ->
  (amount <=? get_balance w base) = true ->
  (proceeds <? 0) = true ->
  exists w',
    settle self w stamp "sell" base quote amount exec_price
      = (Some (paper_fill stamp "sell" amount exec_price proceeds), w')
    /\ get_balance w' base = get_balance w base - amount
    /\ get_balance w' quote = get_balance w quote.
Proof.
  intros Hne proceeds Hamt Hle Hneg.
  unfold settle. simpl String.eqb. cbv iota.
  change (sell_proceeds_of self amount exec_price) with proceeds.
  rewrite (withdraw_ok _ _ _ Hamt Hle), (deposit_negative _ _ _ Hneg).
  eexists. split; [reflexivity|]. split.
  - apply get_balance_insert.
  - by apply get_balance_insert_ne.
Qed.

End Refusals.

(** A buy of 1 BTC at 100 with 50 USD, and a sell of 1 BTC with none. *)
Lemma uncovered_order_is_refused_witness :
  let w := Sample.wallet_of 50 0 in
  _execute_paper_trade (Sample.plain w) w 0 "buy" "BTC/USD" 1 (Some 100) None = (Return None, w)
  /\ _execute_paper_trade (Sample.plain w) w 0 "sell" "BTC/USD" 1 (Some 100) None
     = (Return None, w).
Proof.
  intros w.
  destruct (uncovered_order_is_refused (Sample.plain w) w 0 "BTC/USD" "BTC" "USD" 1
              (Some 100) None 100) as [Hbuy Hsell]; [reflexivity | reflexivity |].
  split; [apply Hbuy | apply Hsell]; reflexivity.
Defined.

(** A sell of 1 BTC at 100 under a fee of 150 percent. *)
Lemma sell_with_negative_proceeds_pays_nothing_witness :
  let w := Sample.wallet_of 1000 2 in
  let self := init (Some w) 0 150 60 in
  exists w',
    settle self w 0 "sell" "BTC" "USD" 1 100
      = (Some (paper_fill 0 "sell" 1 100 ((1 * 100) * (1 - 150 / 100))), w')
    /\ get_balance w' "BTC" = 2 - 1
    /\ get_balance w' "USD" = 1000.
Proof.
  intros w self.
  apply (sell_with_negative_proceeds_pays_nothing self w 0 "BTC" "USD" 1 100);
    [discriminate | reflexivity | reflexivity | reflexivity].
Defined.

(** ** Levels below the fill *)

Section DeeperLevels.

(** Once the walk has stopped inside the book, what follows is not read. *)
Lemma walk_stops (levels : list level) :
  forall (more : list level) (total_cost r : float),
    levels <> [] ->
    (Spec.unfilled levels r <=? 0) = true ->
    walk (levels ++ more) total_cost r = walk levels total_cost r.
Proof.
  induction levels as [|[p v] rest IH]; intros more total_cost r Hne Hr; [done|].
  simpl in *.
  destruct (r - Py.min r v <=? 0) eqn:E; [reflexivity|].
  destruct rest as [|l rest'].
  - simpl in Hr. congruence.
  - by apply IH.
Qed.

(** Levels beyond the one at which the order is filled never change the
    execution price: a book side and the same side with further levels
    appended give the same price when the walk over the shorter one
    fills the amount. *)
Theorem deeper_levels_do_not_move_the_price
    (side : string) (levels more : list level) (amount : float) :
  levels <> [] ->
  (Spec.unfilled levels amount <=? 0) = true ->
  book_price side (levels ++ more) amount = book_price side levels amount.
Proof.
  intros Hne Hr. unfold book_price.
  rewrite (walk_stops levels more 0 amount Hne Hr), walk_consumed.
  by rewrite (leb_zero_not_gt _ Hr).
Qed.

(** The asks [[100,1],[101,2]] for an amount of 2, with and without a
    third level at 500. *)
Lemma deeper_levels_do_not_move_the_price_witness :
  book_price "buy" ([(100, 1); (101, 2)] ++ [(500, 10)]) 2 = Return 100.5.
Proof.
  etransitivity.
  - apply (deeper_levels_do_not_move_the_price "buy" [(100, 1); (101, 2)] [(500, 10)] 2);
      [discriminate | reflexivity].
  - reflexivity.
Defined.

End DeeperLevels.

(** ** Witnesses of two lemmas above *)

(** The specification's depth-exhaustion example with a reference
    price: 5 units against the asks [[100,1],[101,2]]. *)
Lemma depth_exhaustion_blended_price_witness :
  let w := Sample.wallet_of 10000 0 in
  let d := Sample.book_of [(100, 1); (101, 2)] [] in
  _execute_paper_trade (Sample.plain w) w 0 "buy" "BTC/USD" 5 (Some 100) (Some d)
    = (Return (Some (paper_fill 0 "buy" 5 102.82000000000001 514.1)),
       Sample.wallet_of 9485.9 5).
Proof.
  intros w d.
  destruct (depth_exhaustion_blended_price (Sample.plain w) w 0 "BTC/USD" "BTC" "USD"
              5 100 d [(100, 1); (101, 2)] 101 2) as [Hbuy _];
    [reflexivity | reflexivity | reflexivity | reflexivity |].
  rewrite (Hbuy eq_refl). vm_compute. reflexivity.
Defined.

(** A paper buy that settles leaves the last trade time at 0. *)
Lemma paper_mode_keeps_last_trade_time_witness :
  let w := Sample.wallet_of 10000 0 in
  last_trade_time (snd (execute_order (Sample.plain w) 1000 1000
                          (Some (Sample.buy_at 100)) "BTC/USD" 1 None)) = 0.
Proof.
  intros w.
  rewrite (paper_mode_keeps_last_trade_time (Sample.plain w) w 1000 1000
             (Some (Sample.buy_at 100)) "BTC/USD" 1 None); reflexivity.
Defined.

(** The condition of the blended price is on the remainder that the
    walk computes, not on the volumes of the side: the asks
    [[100,0.05],[101,0.18]] hold 0.22999999999999998, less than the
    amount 0.23, yet the remainder ends at 0, no penalty is applied and
    the price is the average over the two levels. *)
Lemma depth_exceeded_without_remainder :
  let asks := [(100, 0.05); (101, 0.18)] in
  (Spec.total_volume asks <? 0.23) = true
  /\ Spec.unfilled asks 0.23 = 0
  /\ book_price "buy" asks 0.23 = Return (Spec.vwap (Spec.consumed asks 0.23) 0.23).
Proof. repeat split; vm_compute; reflexivity. Qed.
